(** * CanvasImageBrush: the brush that switches between two native brushes

    A shallow embedding of [winrt/lib/brushes/CanvasImageBrush.cpp].

    The brush owns at most one of two Direct2D brushes, a bitmap brush
    ([m_d2dBitmapBrush]) and an image brush ([m_d2dImageBrush]), and moves
    from one to the other as images and source rectangles are assigned.
    The C++ member functions are written in a small monad over the brush:
    a member function reads and writes the fields, may throw an
    [HResultException], and dereferences [ComPtr]s that may be null.  A
    throw keeps the writes made before it, as in C++.

    The lock ([m_mutex]) is not modelled: every call runs alone. *)

From Stdlib Require Import ZArith List Bool Lia.
From Stdlib Require Import SpecFloat.
Import ListNotations.

Local Open Scope Z_scope.

(** ** Scalars of the ABI *)

(** [float]: an IEEE 754 value.  The file only stores and copies floats. *)
Definition FLOAT : Type := spec_float.

(** [0.0f], the value of a brace-initialised [float]. *)
Definition FLOAT_zero : FLOAT := S754_zero false.

(** [HRESULT] is a signed 32-bit integer; failure is the sign bit. *)
Definition HRESULT : Type := Z.

Definition S_OK : HRESULT := 0.
(** 0x80070057 *)
Definition E_INVALIDARG : HRESULT := -2147024809.
(** 0x80000013 *)
Definition RO_E_CLOSED : HRESULT := -2147483629.
(** 0x80004002 *)
Definition E_NOINTERFACE : HRESULT := -2147467262.

Definition FAILED (hr : HRESULT) : bool := hr <? 0.

(** The localised messages this file passes to [ThrowHR]. *)
Inductive Strings : Type :=
| ImageBrushRequiresSourceRectangle.

(** The exception [ThrowHR] and [ThrowIfFailed] raise.  It carries a failed
    [HRESULT], a negative number; [failure_code] is its magnitude. *)
Record HResultException : Type := mkHResultException {
  failure_code : positive;
  GetMessage : option Strings
}.

Definition GetHr (e : HResultException) : HRESULT := Z.neg (failure_code e).

(** The exception for a failed [HRESULT]. *)
Definition HResultException_of (hr : HRESULT) (message : option Strings)
  : HResultException :=
  mkHResultException (Z.to_pos (- hr)) message.

(** Enumerations cross the ABI as their underlying integer:
    [static_cast] between the WinRT and the Direct2D enumeration keeps
    the number. *)
Definition D2D1_EXTEND_MODE : Type := Z.
Definition CanvasEdgeBehavior : Type := Z.
Definition D2D1_INTERPOLATION_MODE : Type := Z.
Definition CanvasImageInterpolation : Type := Z.

Definition static_cast (v : Z) : Z := v.

(** [GetBrushFlags] is a bit set. *)
Definition GetBrushFlags : Type := Z.

Module GetBrushFlag.
(** Modelled from the spec: the enumeration [GetBrushFlags] is declared in
    CanvasBrush.h, which is not part of this file; the spec names the flag
    set {SkipValidation, ForceDpiCompensation} and no flag at all. *)
Definition None : GetBrushFlags := 0.
Definition NoValidation : GetBrushFlags := 1.
Definition AlwaysInsertDpiCompensation : GetBrushFlags := 2.
End GetBrushFlag.

Record D2D1_RECT_F : Type := mkD2DRect {
  rect_left : FLOAT; rect_top : FLOAT; rect_right : FLOAT; rect_bottom : FLOAT
}.

Record Rect : Type := mkRect {
  rect_X : FLOAT; rect_Y : FLOAT; rect_Width : FLOAT; rect_Height : FLOAT
}.

Record D2D1_MATRIX_3X2_F : Type := mkMatrix {
  m11 : FLOAT; m12 : FLOAT;
  m21 : FLOAT; m22 : FLOAT;
  m31 : FLOAT; m32 : FLOAT
}.

(** [D2D1_RECT_F defaultRect{}] *)
Definition defaultRect : D2D1_RECT_F :=
  mkD2DRect FLOAT_zero FLOAT_zero FLOAT_zero FLOAT_zero.

(** An [IReference<Rect>] supplied by the caller: what its [get_Value]
    returns and what it writes. *)
Record IReference_Rect : Type := mkReference {
  get_Value_hr : HRESULT;
  get_Value_rect : Rect
}.

(** [Make<Nullable<Rect>>(r)] *)
Definition Nullable (r : Rect) : IReference_Rect := mkReference S_OK r.

(** A pointer argument through which a getter returns its result. *)
Inductive OutPointer : Type :=
| out_nullptr
| out_valid.

(** ** Direct2D objects *)

(** A Direct2D bitmap, known by its identity. *)
Definition ID2D1Bitmap1 : Type := N.

(** A Direct2D image is a bitmap or something else (the output of an
    effect, a command list); [QueryInterface] tells them apart. *)
Inductive ID2D1Image : Type :=
| d2dBitmap (bitmap : ID2D1Bitmap1)
| d2dOtherImage (id : N).

(** [ComPtr<ID2D1Image>::As(&targetBitmap)] *)
Definition As_ID2D1Bitmap1 (image : ID2D1Image) : HRESULT * option ID2D1Bitmap1 :=
  match image with
  | d2dBitmap bitmap => (S_OK, Some bitmap)
  | d2dOtherImage _ => (E_NOINTERFACE, None)
  end.

(** The upcast of a bitmap pointer to an image pointer. *)
Definition upcast_bitmap (bitmap : option ID2D1Bitmap1) : option ID2D1Image :=
  option_map d2dBitmap bitmap.

Module BitmapBrush.
(** The state of an [ID2D1BitmapBrush1] that its getters read. *)
Record t : Type := mk {
  bitmap : option ID2D1Bitmap1;
  extendModeX : D2D1_EXTEND_MODE;
  extendModeY : D2D1_EXTEND_MODE;
  interpolationMode : D2D1_INTERPOLATION_MODE;
  opacity : FLOAT;
  transform : D2D1_MATRIX_3X2_F
}.

Definition GetBitmap := bitmap.
Definition GetExtendModeX := extendModeX.
Definition GetExtendModeY := extendModeY.
Definition GetInterpolationMode1 := interpolationMode.
Definition GetOpacity := opacity.
Definition GetTransform := transform.

Definition SetBitmap (v : option ID2D1Bitmap1) (b : t) : t :=
  mk v (extendModeX b) (extendModeY b) (interpolationMode b) (opacity b) (transform b).
Definition SetExtendModeX (v : D2D1_EXTEND_MODE) (b : t) : t :=
  mk (bitmap b) v (extendModeY b) (interpolationMode b) (opacity b) (transform b).
Definition SetExtendModeY (v : D2D1_EXTEND_MODE) (b : t) : t :=
  mk (bitmap b) (extendModeX b) v (interpolationMode b) (opacity b) (transform b).
Definition SetInterpolationMode1 (v : D2D1_INTERPOLATION_MODE) (b : t) : t :=
  mk (bitmap b) (extendModeX b) (extendModeY b) v (opacity b) (transform b).
Definition SetOpacity (v : FLOAT) (b : t) : t :=
  mk (bitmap b) (extendModeX b) (extendModeY b) (interpolationMode b) v (transform b).
Definition SetTransform (v : D2D1_MATRIX_3X2_F) (b : t) : t :=
  mk (bitmap b) (extendModeX b) (extendModeY b) (interpolationMode b) (opacity b) v.
End BitmapBrush.

Module ImageBrush.
(** The state of an [ID2D1ImageBrush] that its getters read. *)
Record t : Type := mk {
  image : option ID2D1Image;
  extendModeX : D2D1_EXTEND_MODE;
  extendModeY : D2D1_EXTEND_MODE;
  interpolationMode : D2D1_INTERPOLATION_MODE;
  opacity : FLOAT;
  transform : D2D1_MATRIX_3X2_F;
  sourceRectangle : D2D1_RECT_F
}.

Definition GetImage := image.
Definition GetExtendModeX := extendModeX.
Definition GetExtendModeY := extendModeY.
Definition GetInterpolationMode := interpolationMode.
Definition GetOpacity := opacity.
Definition GetTransform := transform.
Definition GetSourceRectangle := sourceRectangle.

Definition SetImage (v : option ID2D1Image) (b : t) : t :=
  mk v (extendModeX b) (extendModeY b) (interpolationMode b) (opacity b)
     (transform b) (sourceRectangle b).
Definition SetExtendModeX (v : D2D1_EXTEND_MODE) (b : t) : t :=
  mk (image b) v (extendModeY b) (interpolationMode b) (opacity b)
     (transform b) (sourceRectangle b).
Definition SetExtendModeY (v : D2D1_EXTEND_MODE) (b : t) : t :=
  mk (image b) (extendModeX b) v (interpolationMode b) (opacity b)
     (transform b) (sourceRectangle b).
Definition SetInterpolationMode (v : D2D1_INTERPOLATION_MODE) (b : t) : t :=
  mk (image b) (extendModeX b) (extendModeY b) v (opacity b)
     (transform b) (sourceRectangle b).
Definition SetOpacity (v : FLOAT) (b : t) : t :=
  mk (image b) (extendModeX b) (extendModeY b) (interpolationMode b) v
     (transform b) (sourceRectangle b).
Definition SetTransform (v : D2D1_MATRIX_3X2_F) (b : t) : t :=
  mk (image b) (extendModeX b) (extendModeY b) (interpolationMode b) (opacity b)
     v (sourceRectangle b).
Definition SetSourceRectangle (v : D2D1_RECT_F) (b : t) : t :=
  mk (image b) (extendModeX b) (extendModeY b) (interpolationMode b) (opacity b)
     (transform b) v.
End ImageBrush.

Definition ID2D1BitmapBrush1 : Type := BitmapBrush.t.
Definition ID2D1ImageBrush : Type := ImageBrush.t.

(** [ID2D1Brush]: what [GetD2DBrush] hands to the drawing code. *)
Inductive ID2D1Brush : Type :=
| brush_of_bitmapBrush (b : ID2D1BitmapBrush1)
| brush_of_imageBrush (b : ID2D1ImageBrush).

Definition ID2D1DeviceContext : Type := N.

(** ** Canvas objects *)

Definition ICanvasDevice : Type := N.

(** The effect behind an [IGraphicsEffect], seen as [ICanvasImageInternal]. *)
Definition ICanvasImageInternal : Type := N.

(** An [ICanvasImage] handed in by the caller, described by what the
    interface queries of [SetImage] find on it: whether [MaybeAs<ICanvasBitmap>]
    finds a bitmap, with the Direct2D bitmap its [GetD2DBitmap] gives; the
    [HRESULT] of the query that [As<ICanvasBitmapInternal>] makes on that
    bitmap; whether [MaybeAs<IGraphicsEffect>] finds an effect, with its
    [ICanvasImageInternal]; and the [HRESULT] of the query that
    [As<ICanvasImageInternal>] makes on that effect.  [As] throws when its
    query fails. *)
Record ICanvasImage : Type := Build_ICanvasImage {
  image_identity : N;
  MaybeAs_ICanvasBitmap : option ID2D1Bitmap1;
  As_ICanvasBitmapInternal : HRESULT;
  MaybeAs_IGraphicsEffect : option ICanvasImageInternal;
  As_ICanvasImageInternal : HRESULT
}.

(** An image of one of the library's own classes: the internal interfaces
    are there. *)
Definition mkCanvasImage (identity : N) (bitmap : option ID2D1Bitmap1)
           (effect : option ICanvasImageInternal) : ICanvasImage :=
  Build_ICanvasImage identity bitmap S_OK effect S_OK.

(** The three services of the device this file calls.  They are implemented
    in CanvasDevice.cpp, not here: a value of this record is the way the
    device answers during one call.  Each call is made through
    [As<ICanvasDeviceInternal>]; a throw of that query is a throw of the
    call. *)
Record ICanvasDeviceInternal : Type := mkDevice {
  GetD2DImage : ICanvasImage -> HResultException + ID2D1Image;
  CreateImageBrush : option ID2D1Image -> HResultException + ID2D1ImageBrush;
  CreateBitmapBrush : option ID2D1Bitmap1 -> HResultException + ID2D1BitmapBrush1
}.

(** Which member the resource registered with [ResourceWrapper] aliases. *)
Inductive ResourceAlias : Type :=
| resource_bitmapBrush
| resource_imageBrush.

(** ** The brush *)

Record CanvasImageBrush : Type := mkBrush {
  (** [CanvasBrush::m_device], a [ClosablePtr]: [None] once closed. *)
  m_device : option ICanvasDevice;
  (** the resource of [ResourceWrapper] *)
  m_resource : option ResourceAlias;
  m_d2dBitmapBrush : option ID2D1BitmapBrush1;
  m_d2dImageBrush : option ID2D1ImageBrush;
  m_isSourceRectSet : bool;
  m_effectNeedingDpiFixup : option ICanvasImageInternal
}.

Definition set_m_device v (b : CanvasImageBrush) : CanvasImageBrush :=
  mkBrush v (m_resource b) (m_d2dBitmapBrush b) (m_d2dImageBrush b)
          (m_isSourceRectSet b) (m_effectNeedingDpiFixup b).
Definition set_m_resource v (b : CanvasImageBrush) : CanvasImageBrush :=
  mkBrush (m_device b) v (m_d2dBitmapBrush b) (m_d2dImageBrush b)
          (m_isSourceRectSet b) (m_effectNeedingDpiFixup b).
Definition set_m_d2dBitmapBrush v (b : CanvasImageBrush) : CanvasImageBrush :=
  mkBrush (m_device b) (m_resource b) v (m_d2dImageBrush b)
          (m_isSourceRectSet b) (m_effectNeedingDpiFixup b).
Definition set_m_d2dImageBrush v (b : CanvasImageBrush) : CanvasImageBrush :=
  mkBrush (m_device b) (m_resource b) (m_d2dBitmapBrush b) v
          (m_isSourceRectSet b) (m_effectNeedingDpiFixup b).
Definition set_m_isSourceRectSet v (b : CanvasImageBrush) : CanvasImageBrush :=
  mkBrush (m_device b) (m_resource b) (m_d2dBitmapBrush b) (m_d2dImageBrush b)
          v (m_effectNeedingDpiFixup b).
Definition set_m_effectNeedingDpiFixup v (b : CanvasImageBrush) : CanvasImageBrush :=
  mkBrush (m_device b) (m_resource b) (m_d2dBitmapBrush b) (m_d2dImageBrush b)
          (m_isSourceRectSet b) v.

Definition is_set {A : Type} (p : option A) : bool :=
  match p with Some _ => true | None => false end.

(** ** The monad of member functions *)

Inductive Outcome (A : Type) : Type :=
| Normal (a : A)
| Throw (e : HResultException)
| NullDereference.

Arguments Normal {A} a.
Arguments Throw {A} e.
Arguments NullDereference {A}.

Definition M (A : Type) : Type := CanvasImageBrush -> Outcome A * CanvasImageBrush.

Definition ret {A : Type} (a : A) : M A := fun s => (Normal a, s).

Definition bind {A B : Type} (m : M A) (k : A -> M B) : M B :=
  fun s =>
    match m s with
    | (Normal a, s') => k a s'
    | (Throw e, s') => (Throw e, s')
    | (NullDereference, s') => (NullDereference, s')
    end.

Notation "x <- c1 ;; c2" := (bind c1 (fun x => c2))
  (at level 61, c1 at next level, right associativity).
Notation "c1 ;; c2" := (bind c1 (fun _ => c2))
  (at level 61, right associativity).

Definition gets {A : Type} (f : CanvasImageBrush -> A) : M A :=
  fun s => (Normal (f s), s).

Definition modify (f : CanvasImageBrush -> CanvasImageBrush) : M unit :=
  fun s => (Normal tt, f s).

Definition throw {A : Type} (e : HResultException) : M A :=
  fun s => (Throw e, s).

(** [p->...] on a [ComPtr] *)
Definition deref {A : Type} (p : option A) : M A :=
  fun s =>
    match p with
    | Some a => (Normal a, s)
    | None => (NullDereference, s)
    end.

(** A call into a collaborator that returns or throws. *)
Definition call {A : Type} (r : HResultException + A) : M A :=
  match r with
  | inr a => ret a
  | inl e => throw e
  end.

Definition ThrowHR {A : Type} (hr : HRESULT) (message : option Strings) : M A :=
  throw (HResultException_of hr message).

Definition ThrowIfFailed (hr : HRESULT) : M unit :=
  if FAILED hr then ThrowHR hr None else ret tt.

(** Modelled from the spec: [CheckInPointer] and [CheckAndClearOutPointer]
    are declared in ErrorHandling.h, not in this file; the spec gives the
    error of a null required pointer as invalid-argument. *)
Definition CheckInPointer (value : OutPointer) : M unit :=
  match value with
  | out_nullptr => ThrowHR E_INVALIDARG None
  | out_valid => ret tt
  end.

(** Modelled from the spec: [CheckAndClearOutPointer], of ErrorHandling.h as
    well, checks like [CheckInPointer] and then stores null through the
    pointer. *)
Definition CheckAndClearOutPointer (value : OutPointer) : M unit :=
  CheckInPointer value.

(** [ExceptionBoundary] for a method without a result: the exception
    becomes the returned [HRESULT]. *)
Definition ExceptionBoundary (body : M unit) : M HRESULT :=
  fun s =>
    match body s with
    | (Normal _, s') => (Normal S_OK, s')
    | (Throw e, s') => (Normal (GetHr e), s')
    | (NullDereference, s') => (NullDereference, s')
    end.

(** [ExceptionBoundary] for a getter: the body computes what is stored
    through the out pointer; nothing is delivered when it throws. *)
Definition ExceptionBoundary_out {A : Type} (body : M A) : M (HRESULT * option A) :=
  fun s =>
    match body s with
    | (Normal a, s') => (Normal (S_OK, Some a), s')
    | (Throw e, s') => (Normal (GetHr e, None), s')
    | (NullDereference, s') => (NullDereference, s')
    end.

(** Member access through the two [ComPtr]s. *)
Definition of_d2dBitmapBrush {A : Type} (getter : ID2D1BitmapBrush1 -> A) : M A :=
  p <- gets m_d2dBitmapBrush ;;
  b <- deref p ;;
  ret (getter b).

Definition on_d2dBitmapBrush (setter : ID2D1BitmapBrush1 -> ID2D1BitmapBrush1) : M unit :=
  p <- gets m_d2dBitmapBrush ;;
  b <- deref p ;;
  modify (set_m_d2dBitmapBrush (Some (setter b))).

Definition of_d2dImageBrush {A : Type} (getter : ID2D1ImageBrush -> A) : M A :=
  p <- gets m_d2dImageBrush ;;
  b <- deref p ;;
  ret (getter b).

Definition on_d2dImageBrush (setter : ID2D1ImageBrush -> ID2D1ImageBrush) : M unit :=
  p <- gets m_d2dImageBrush ;;
  b <- deref p ;;
  modify (set_m_d2dImageBrush (Some (setter b))).

(** Modelled from the spec: [ClosablePtr::EnsureNotClosed] belongs to the
    resource-wrapper framework, not to this file; the spec has every
    operation on a closed brush fail with a use-after-close error. *)
Definition EnsureNotClosed : M ICanvasDevice :=
  p <- gets m_device ;;
  match p with
  | Some device => ret device
  | None => ThrowHR RO_E_CLOSED None
  end.

(** [ResourceWrapper::SetResource] *)
Definition SetResource (r : ResourceAlias) : M unit :=
  modify (set_m_resource (Some r)).

(** ** The member functions *)

Section MemberFunctions.

(** Helpers of the library that this file calls and does not define:
    the conversions between the WinRT and the Direct2D rectangle, the
    DPI of a device context and the sentinel DPI, the realisation of an
    effect graph, and the resource manager. *)
Variable ToD2DRect : Rect -> D2D1_RECT_F.
Variable FromD2DRect : D2D1_RECT_F -> Rect.
Variable GetDpi : ID2D1DeviceContext -> FLOAT.
Variable MAGIC_FORCE_DPI_COMPENSATION_VALUE : FLOAT.
Variable GetRealizedEffectNode :
  ICanvasImageInternal -> ID2D1DeviceContext -> FLOAT -> HResultException + unit.
Variable GetOrCreate : ICanvasDevice -> ID2D1Image -> HResultException + ICanvasImage.
Variable ValidateDevice : ICanvasDevice -> ICanvasDevice -> HResultException + unit.
Variable CopyTo : Z -> ID2D1Brush -> HRESULT.

(** The device, as it answers during the call. *)
Variable dev : ICanvasDeviceInternal.

Definition ThrowIfClosed : M unit :=
  EnsureNotClosed ;; ret tt.

Definition SwitchToImageBrush (image : option ID2D1Image) : M unit :=
  (* assert(!m_d2dImageBrush); *)
  EnsureNotClosed ;;
  created <- call (CreateImageBrush dev image) ;;
  modify (set_m_d2dImageBrush (Some created)) ;;
  old <- gets m_d2dBitmapBrush ;;
  (if is_set old then
     x <- of_d2dBitmapBrush BitmapBrush.GetExtendModeX ;;
     on_d2dImageBrush (ImageBrush.SetExtendModeX x) ;;
     y <- of_d2dBitmapBrush BitmapBrush.GetExtendModeY ;;
     on_d2dImageBrush (ImageBrush.SetExtendModeY y) ;;
     i <- of_d2dBitmapBrush BitmapBrush.GetInterpolationMode1 ;;
     on_d2dImageBrush (ImageBrush.SetInterpolationMode i) ;;
     o <- of_d2dBitmapBrush BitmapBrush.GetOpacity ;;
     on_d2dImageBrush (ImageBrush.SetOpacity o) ;;
     transform <- of_d2dBitmapBrush BitmapBrush.GetTransform ;;
     on_d2dImageBrush (ImageBrush.SetTransform transform) ;;
     modify (set_m_d2dBitmapBrush None)
   else ret tt) ;;
  SetResource resource_imageBrush.

Definition SwitchToBitmapBrush (bitmap : option ID2D1Bitmap1) : M unit :=
  (* assert(!m_d2dBitmapBrush); assert(!m_isSourceRectSet); *)
  EnsureNotClosed ;;
  created <- call (CreateBitmapBrush dev bitmap) ;;
  modify (set_m_d2dBitmapBrush (Some created)) ;;
  old <- gets m_d2dImageBrush ;;
  (if is_set old then
     x <- of_d2dImageBrush ImageBrush.GetExtendModeX ;;
     on_d2dBitmapBrush (BitmapBrush.SetExtendModeX x) ;;
     y <- of_d2dImageBrush ImageBrush.GetExtendModeY ;;
     on_d2dBitmapBrush (BitmapBrush.SetExtendModeY y) ;;
     i <- of_d2dImageBrush ImageBrush.GetInterpolationMode ;;
     on_d2dBitmapBrush (BitmapBrush.SetInterpolationMode1 i) ;;
     o <- of_d2dImageBrush ImageBrush.GetOpacity ;;
     on_d2dBitmapBrush (BitmapBrush.SetOpacity o) ;;
     transform <- of_d2dImageBrush ImageBrush.GetTransform ;;
     on_d2dBitmapBrush (BitmapBrush.SetTransform transform) ;;
     modify (set_m_d2dImageBrush None)
   else ret tt) ;;
  SetResource resource_bitmapBrush.

Definition TrySwitchFromImageBrushToBitmapBrush : M unit :=
  (* assert(m_d2dImageBrush); assert(!m_isSourceRectSet); *)
  targetImage <- of_d2dImageBrush ImageBrush.GetImage ;;
  match targetImage with
  | Some image =>
      let (hr, targetBitmap) := As_ID2D1Bitmap1 image in
      if FAILED hr then
        (* The image brush's image isn't a bitmap. *)
        ret tt
      else SwitchToBitmapBrush targetBitmap
  | None => SwitchToBitmapBrush None
  end.

Definition SetImage (image : option ICanvasImage) : M unit :=
  modify (set_m_effectNeedingDpiFixup None) ;;
  match image with
  | None =>
      p <- gets m_d2dBitmapBrush ;;
      if is_set p then on_d2dBitmapBrush (BitmapBrush.SetBitmap None)
      else on_d2dImageBrush (ImageBrush.SetImage None)
  | Some image =>
      let bitmap := MaybeAs_ICanvasBitmap image in
      isSourceRectSet <- gets m_isSourceRectSet ;;
      if is_set bitmap && negb isSourceRectSet then
        (* Use a bitmap brush. *)
        ThrowIfFailed (As_ICanvasBitmapInternal image) ;;
        let d2dBitmap := bitmap in
        p <- gets m_d2dBitmapBrush ;;
        if is_set p then on_d2dBitmapBrush (BitmapBrush.SetBitmap d2dBitmap)
        else SwitchToBitmapBrush d2dBitmap
      else
        (* Use an image brush. *)
        EnsureNotClosed ;;
        d2dImage <- call (GetD2DImage dev image) ;;
        p <- gets m_d2dImageBrush ;;
        (if is_set p then on_d2dImageBrush (ImageBrush.SetImage (Some d2dImage))
         else SwitchToImageBrush (Some d2dImage)) ;;
        let effect := MaybeAs_IGraphicsEffect image in
        if is_set effect then
          ThrowIfFailed (As_ICanvasImageInternal image) ;;
          modify (set_m_effectNeedingDpiFixup effect)
        else ret tt
  end.

(** [CanvasImageBrush::GetD2DImage() const] *)
Definition GetD2DImage_of_brush : M (option ID2D1Image) :=
  p <- gets m_d2dBitmapBrush ;;
  if is_set p then
    bitmap <- of_d2dBitmapBrush BitmapBrush.GetBitmap ;;
    ret (upcast_bitmap bitmap)
  else
    of_d2dImageBrush ImageBrush.GetImage.

Definition get_Image (value : OutPointer) : M (HRESULT * option (option ICanvasImage)) :=
  ExceptionBoundary_out (
    CheckAndClearOutPointer value ;;
    device <- EnsureNotClosed ;;
    d2dImage <- GetD2DImage_of_brush ;;
    match d2dImage with
    | None => ret None
    | Some d2dImage =>
        image <- call (GetOrCreate device d2dImage) ;;
        ret (Some image)
    end).

Definition put_Image (value : option ICanvasImage) : M HRESULT :=
  ExceptionBoundary (
    ThrowIfClosed ;;
    SetImage value).

Definition get_ExtendX (value : OutPointer) : M (HRESULT * option CanvasEdgeBehavior) :=
  ExceptionBoundary_out (
    CheckInPointer value ;;
    ThrowIfClosed ;;
    p <- gets m_d2dBitmapBrush ;;
    extendMode <- (if is_set p then of_d2dBitmapBrush BitmapBrush.GetExtendModeX
                   else of_d2dImageBrush ImageBrush.GetExtendModeX) ;;
    ret (static_cast extendMode)).

Definition put_ExtendX (value : CanvasEdgeBehavior) : M HRESULT :=
  ExceptionBoundary (
    ThrowIfClosed ;;
    p <- gets m_d2dBitmapBrush ;;
    if is_set p then on_d2dBitmapBrush (BitmapBrush.SetExtendModeX (static_cast value))
    else on_d2dImageBrush (ImageBrush.SetExtendModeX (static_cast value))).

Definition get_ExtendY (value : OutPointer) : M (HRESULT * option CanvasEdgeBehavior) :=
  ExceptionBoundary_out (
    CheckInPointer value ;;
    ThrowIfClosed ;;
    p <- gets m_d2dBitmapBrush ;;
    extendMode <- (if is_set p then of_d2dBitmapBrush BitmapBrush.GetExtendModeY
                   else of_d2dImageBrush ImageBrush.GetExtendModeY) ;;
    ret (static_cast extendMode)).

Definition put_ExtendY (value : CanvasEdgeBehavior) : M HRESULT :=
  ExceptionBoundary (
    ThrowIfClosed ;;
    p <- gets m_d2dBitmapBrush ;;
    if is_set p then on_d2dBitmapBrush (BitmapBrush.SetExtendModeY (static_cast value))
    else on_d2dImageBrush (ImageBrush.SetExtendModeY (static_cast value))).

Definition get_SourceRectangle (value : OutPointer) : M (HRESULT * option (option Rect)) :=
  ExceptionBoundary_out (
    CheckAndClearOutPointer value ;;
    ThrowIfClosed ;;
    p <- gets m_d2dImageBrush ;;
    isSourceRectSet <- gets m_isSourceRectSet ;;
    if is_set p && isSourceRectSet then
      sourceRectangle <- of_d2dImageBrush ImageBrush.GetSourceRectangle ;;
      ret (Some (FromD2DRect sourceRectangle))
    else
      (* returns a NULL rect for the bitmap brush *)
      ret None).

Definition GetD2DRectFromRectReference (value : IReference_Rect) : M D2D1_RECT_F :=
  ThrowIfFailed (get_Value_hr value) ;;
  ret (ToD2DRect (get_Value_rect value)).

Definition put_SourceRectangle (value : option IReference_Rect) : M HRESULT :=
  ExceptionBoundary (
    ThrowIfClosed ;;
    p <- gets m_d2dBitmapBrush ;;
    if is_set p then
      (* assert(!m_isSourceRectSet); *)
      match value with
      | Some value =>
          targetImage <- of_d2dBitmapBrush BitmapBrush.GetBitmap ;;
          SwitchToImageBrush (upcast_bitmap targetImage) ;;
          d2dRect <- GetD2DRectFromRectReference value ;;
          on_d2dImageBrush (ImageBrush.SetSourceRectangle d2dRect) ;;
          modify (set_m_isSourceRectSet true)
      | None =>
          (* If value is null, do nothing. *)
          ret tt
      end
    else
      match value with
      | Some value =>
          d2dRect <- GetD2DRectFromRectReference value ;;
          on_d2dImageBrush (ImageBrush.SetSourceRectangle d2dRect) ;;
          modify (set_m_isSourceRectSet true)
      | None =>
          on_d2dImageBrush (ImageBrush.SetSourceRectangle defaultRect) ;;
          modify (set_m_isSourceRectSet false) ;;
          (* Source rect is null. We might be able to switch to bitmap brush. *)
          TrySwitchFromImageBrushToBitmapBrush
      end).

Definition get_Interpolation (value : OutPointer)
  : M (HRESULT * option CanvasImageInterpolation) :=
  ExceptionBoundary_out (
    CheckInPointer value ;;
    ThrowIfClosed ;;
    p <- gets m_d2dBitmapBrush ;;
    interpolationMode <-
      (if is_set p then of_d2dBitmapBrush BitmapBrush.GetInterpolationMode1
       else of_d2dImageBrush ImageBrush.GetInterpolationMode) ;;
    ret (static_cast interpolationMode)).

Definition put_Interpolation (value : CanvasImageInterpolation) : M HRESULT :=
  ExceptionBoundary (
    ThrowIfClosed ;;
    p <- gets m_d2dBitmapBrush ;;
    if is_set p then
      on_d2dBitmapBrush (BitmapBrush.SetInterpolationMode1 (static_cast value))
    else
      on_d2dImageBrush (ImageBrush.SetInterpolationMode (static_cast value))).

(** Modelled from the spec: [CanvasBrush::Close] and
    [ResourceWrapper::Close] are not in this file; by the spec the first
    marks the brush closed and the second gives up the registered
    resource. *)
Definition Close : M HRESULT :=
  modify (set_m_device None) ;;
  modify (set_m_d2dBitmapBrush None) ;;
  modify (set_m_d2dImageBrush None) ;;
  modify (set_m_resource None) ;;
  ret S_OK.

Definition GetD2DBrush (deviceContext : option ID2D1DeviceContext) (flags : GetBrushFlags)
  : M (option ID2D1Brush) :=
  ThrowIfClosed ;;
  p <- gets m_d2dBitmapBrush ;;
  if is_set p then
    ret (option_map brush_of_bitmapBrush p)
  else
    (* Validate the brush configuration? *)
    (if Z.land flags GetBrushFlag.NoValidation =? GetBrushFlag.None then
       isSourceRectSet <- gets m_isSourceRectSet ;;
       if negb isSourceRectSet then
         ThrowHR E_INVALIDARG (Some ImageBrushRequiresSourceRectangle)
       else ret tt
     else ret tt) ;;
    effect <- gets m_effectNeedingDpiFixup ;;
    match effect, deviceContext with
    | Some effect, Some deviceContext =>
        let targetDpi :=
          if negb (Z.land flags GetBrushFlag.AlwaysInsertDpiCompensation
                   =? GetBrushFlag.None)
          then MAGIC_FORCE_DPI_COMPENSATION_VALUE
          else GetDpi deviceContext in
        call (GetRealizedEffectNode effect deviceContext targetDpi)
    | _, _ => ret tt
    end ;;
    q <- gets m_d2dImageBrush ;;
    ret (option_map brush_of_imageBrush q).

Definition GetResource (device : ICanvasDevice) (dpi : FLOAT) (iid : Z)
           (resource : OutPointer) : M (HRESULT * option ID2D1Brush) :=
  ExceptionBoundary_out (
    CheckAndClearOutPointer resource ;;
    owner <- EnsureNotClosed ;;
    call (ValidateDevice owner device) ;;
    p <- gets m_d2dBitmapBrush ;;
    if is_set p then
      b <- of_d2dBitmapBrush brush_of_bitmapBrush ;;
      ThrowIfFailed (CopyTo iid b) ;;
      ret b
    else
      b <- of_d2dImageBrush brush_of_imageBrush ;;
      ThrowIfFailed (CopyTo iid b) ;;
      ret b).

(** *** Construction *)

(** The constructor that wraps an existing [ID2D1BitmapBrush1]. *)
Definition CanvasImageBrush_of_bitmapBrush
           (device : ICanvasDevice) (bitmapBrush : ID2D1BitmapBrush1) : CanvasImageBrush :=
  mkBrush (Some device) (Some resource_bitmapBrush) (Some bitmapBrush) None false None.

(** The constructor that wraps an existing [ID2D1ImageBrush]. *)
Definition CanvasImageBrush_of_imageBrush
           (device : ICanvasDevice) (imageBrush : ID2D1ImageBrush) : CanvasImageBrush :=
  mkBrush (Some device) (Some resource_imageBrush) None (Some imageBrush) true None.

(** The constructor from an [ICanvasImage]: the members as the
    initialiser list leaves them, then the body. *)
Definition CanvasImageBrush_of_image
           (device : ICanvasDevice) (image : option ICanvasImage)
  : Outcome unit * CanvasImageBrush :=
  (if is_set image then SetImage image else SwitchToBitmapBrush None)
    (mkBrush (Some device) None None None false None).

(** [CanvasImageBrushFactory::CreateWithImage]; [resourceAllocator] is null
    or gives what its [get_Device] returns. *)
Definition CreateWithImage
           (resourceAllocator : option (HRESULT * ICanvasDevice))
           (image : option ICanvasImage)
           (canvasImageBrush : OutPointer)
  : Outcome (HRESULT * option CanvasImageBrush) :=
  match resourceAllocator, canvasImageBrush with
  | None, _ => Normal (E_INVALIDARG, None)
  | Some _, out_nullptr => Normal (E_INVALIDARG, None)
  | Some (hr, device), out_valid =>
      if FAILED hr then Normal (hr, None)
      else
        match CanvasImageBrush_of_image device image with
        | (Normal _, newImageBrush) => Normal (S_OK, Some newImageBrush)
        | (Throw e, _) => Normal (GetHr e, None)
        | (NullDereference, _) => NullDereference
        end
  end.

Definition Create (resourceAllocator : option (HRESULT * ICanvasDevice))
           (canvasImageBrush : OutPointer) :=
  CreateWithImage resourceAllocator None canvasImageBrush.

End MemberFunctions.


(** ** Observations and calls *)

(** The representation of the brush: which of the two [ComPtr]s are set. *)
Inductive Representation : Type :=
| NoBrush
| BitmapBrushRepresentation
| GeneralImageBrushRepresentation
| BothBrushes.

Definition representation (b : CanvasImageBrush) : Representation :=
  match m_d2dBitmapBrush b, m_d2dImageBrush b with
  | None, None => NoBrush
  | Some _, None => BitmapBrushRepresentation
  | None, Some _ => GeneralImageBrushRepresentation
  | Some _, Some _ => BothBrushes
  end.

(** Exactly one of the two native brushes is populated. *)
Definition exactly_one_populated (b : CanvasImageBrush) : bool :=
  xorb (is_set (m_d2dBitmapBrush b)) (is_set (m_d2dImageBrush b)).

Definition is_closed (b : CanvasImageBrush) : bool :=
  negb (is_set (m_device b)).

(** The style the two native brushes have in common. *)
Record Style : Type := mkStyle {
  style_extendX : D2D1_EXTEND_MODE;
  style_extendY : D2D1_EXTEND_MODE;
  style_interpolation : D2D1_INTERPOLATION_MODE;
  style_opacity : FLOAT;
  style_transform : D2D1_MATRIX_3X2_F
}.

Definition style_of_bitmapBrush (b : ID2D1BitmapBrush1) : Style :=
  mkStyle (BitmapBrush.GetExtendModeX b) (BitmapBrush.GetExtendModeY b)
          (BitmapBrush.GetInterpolationMode1 b) (BitmapBrush.GetOpacity b)
          (BitmapBrush.GetTransform b).

Definition style_of_imageBrush (b : ID2D1ImageBrush) : Style :=
  mkStyle (ImageBrush.GetExtendModeX b) (ImageBrush.GetExtendModeY b)
          (ImageBrush.GetInterpolationMode b) (ImageBrush.GetOpacity b)
          (ImageBrush.GetTransform b).

(** The style of the brush that the accessors dispatch to. *)
Definition style_of (b : CanvasImageBrush) : option Style :=
  match m_d2dBitmapBrush b with
  | Some bb => Some (style_of_bitmapBrush bb)
  | None => option_map style_of_imageBrush (m_d2dImageBrush b)
  end.

(** The image bound to the brush that the accessors dispatch to. *)
Definition bound_image (b : CanvasImageBrush) : option ID2D1Image :=
  match m_d2dBitmapBrush b with
  | Some bb => upcast_bitmap (BitmapBrush.GetBitmap bb)
  | None =>
      match m_d2dImageBrush b with
      | Some ib => ImageBrush.GetImage ib
      | None => None
      end
  end.

(** The five copies of a switch, applied to the new native brush in the
    order of the source. *)
Definition copy_to_imageBrush (old : ID2D1BitmapBrush1) (new : ID2D1ImageBrush)
  : ID2D1ImageBrush :=
  ImageBrush.SetTransform (BitmapBrush.GetTransform old)
    (ImageBrush.SetOpacity (BitmapBrush.GetOpacity old)
      (ImageBrush.SetInterpolationMode (BitmapBrush.GetInterpolationMode1 old)
        (ImageBrush.SetExtendModeY (BitmapBrush.GetExtendModeY old)
          (ImageBrush.SetExtendModeX (BitmapBrush.GetExtendModeX old) new)))).

Definition copy_to_bitmapBrush (old : ID2D1ImageBrush) (new : ID2D1BitmapBrush1)
  : ID2D1BitmapBrush1 :=
  BitmapBrush.SetTransform (ImageBrush.GetTransform old)
    (BitmapBrush.SetOpacity (ImageBrush.GetOpacity old)
      (BitmapBrush.SetInterpolationMode1 (ImageBrush.GetInterpolationMode old)
        (BitmapBrush.SetExtendModeY (ImageBrush.GetExtendModeY old)
          (BitmapBrush.SetExtendModeX (ImageBrush.GetExtendModeX old) new)))).

(** The helpers of the library the member functions are parameterised by,
    gathered: one value is the way the rest of the library answers during
    one call. *)
Record Library : Type := mkLibrary {
  lib_ToD2DRect : Rect -> D2D1_RECT_F;
  lib_FromD2DRect : D2D1_RECT_F -> Rect;
  lib_GetDpi : ID2D1DeviceContext -> FLOAT;
  lib_MAGIC_FORCE_DPI_COMPENSATION_VALUE : FLOAT;
  lib_GetRealizedEffectNode :
    ICanvasImageInternal -> ID2D1DeviceContext -> FLOAT -> HResultException + unit;
  lib_GetOrCreate : ICanvasDevice -> ID2D1Image -> HResultException + ICanvasImage;
  lib_ValidateDevice : ICanvasDevice -> ICanvasDevice -> HResultException + unit;
  lib_CopyTo : Z -> ID2D1Brush -> HRESULT;
  lib_device : ICanvasDeviceInternal
}.

(** [GetD2DBrush] with the helpers taken from a [Library]. *)
Definition resolveForDrawing (lib : Library)
           (deviceContext : option ID2D1DeviceContext) (flags : GetBrushFlags)
  : M (option ID2D1Brush) :=
  GetD2DBrush (lib_GetDpi lib) (lib_MAGIC_FORCE_DPI_COMPENSATION_VALUE lib)
              (lib_GetRealizedEffectNode lib) deviceContext flags.

(** A call of a public member function with its arguments. *)
Inductive Call : Type :=
| call_get_Image (value : OutPointer)
| call_put_Image (value : option ICanvasImage)
| call_get_ExtendX (value : OutPointer)
| call_put_ExtendX (value : CanvasEdgeBehavior)
| call_get_ExtendY (value : OutPointer)
| call_put_ExtendY (value : CanvasEdgeBehavior)
| call_get_SourceRectangle (value : OutPointer)
| call_put_SourceRectangle (value : option IReference_Rect)
| call_get_Interpolation (value : OutPointer)
| call_put_Interpolation (value : CanvasImageInterpolation)
| call_GetD2DBrush (deviceContext : option ID2D1DeviceContext) (flags : GetBrushFlags)
| call_GetResource (device : ICanvasDevice) (dpi : FLOAT) (iid : Z) (resource : OutPointer)
| call_Close.

(** The [HRESULT] of a getter, without what it delivers. *)
Definition hresult_of {A : Type} (m : M (HRESULT * A)) : M HRESULT :=
  r <- m ;; ret (fst r).

(** A call and the [HRESULT] its caller receives; [GetD2DBrush] throws, and
    the [HRESULT] is the one its caller's exception boundary returns. *)
Definition invoke (lib : Library) (c : Call) : M HRESULT :=
  match c with
  | call_get_Image value => hresult_of (get_Image (lib_GetOrCreate lib) value)
  | call_put_Image value => put_Image (lib_device lib) value
  | call_get_ExtendX value => hresult_of (get_ExtendX value)
  | call_put_ExtendX value => put_ExtendX value
  | call_get_ExtendY value => hresult_of (get_ExtendY value)
  | call_put_ExtendY value => put_ExtendY value
  | call_get_SourceRectangle value =>
      hresult_of (get_SourceRectangle (lib_FromD2DRect lib) value)
  | call_put_SourceRectangle value =>
      put_SourceRectangle (lib_ToD2DRect lib) (lib_device lib) value
  | call_get_Interpolation value => hresult_of (get_Interpolation value)
  | call_put_Interpolation value => put_Interpolation value
  | call_GetD2DBrush deviceContext flags =>
      ExceptionBoundary (resolveForDrawing lib deviceContext flags ;; ret tt)
  | call_GetResource device dpi iid resource =>
      hresult_of (GetResource (lib_ValidateDevice lib) (lib_CopyTo lib) device dpi iid resource)
  | call_Close => Close
  end.

(** The two mutators of the representation, each with the library as it
    answers during that call. *)
Inductive Mutation : Type :=
| setImage (lib : Library) (image : option ICanvasImage)
| setSourceRectangle (lib : Library) (value : option IReference_Rect).

Definition mutate (m : Mutation) : M HRESULT :=
  match m with
  | setImage lib image => invoke lib (call_put_Image image)
  | setSourceRectangle lib value => invoke lib (call_put_SourceRectangle value)
  end.

(** The brush after a sequence of mutations; a failed call returns its
    [HRESULT] and the brush stays in use. *)
Fixpoint run (calls : list Mutation) (b : CanvasImageBrush) : CanvasImageBrush :=
  match calls with
  | [] => b
  | m :: calls' => run calls' (snd (mutate m b))
  end.

Definition is_Close (c : Call) : bool :=
  match c with call_Close => true | _ => false end.

(** The accessors: every call but [Close]; the ones that return through an
    out pointer, and whether that pointer is null. *)
Definition null_out_pointer (c : Call) : bool :=
  match c with
  | call_get_Image out_nullptr
  | call_get_ExtendX out_nullptr
  | call_get_ExtendY out_nullptr
  | call_get_SourceRectangle out_nullptr
  | call_get_Interpolation out_nullptr
  | call_GetResource _ _ _ out_nullptr => true
  | _ => false
  end.

(** The brushes a client can hold before [Close]: made by one of the three
    constructors, then used through any calls. *)
Inductive reachable : CanvasImageBrush -> Prop :=
| reachable_factory dev resourceAllocator image b :
    CreateWithImage dev resourceAllocator image out_valid = Normal (S_OK, Some b) ->
    reachable b
| reachable_of_bitmapBrush device bitmapBrush :
    reachable (CanvasImageBrush_of_bitmapBrush device bitmapBrush)
| reachable_of_imageBrush device imageBrush :
    reachable (CanvasImageBrush_of_imageBrush device imageBrush)
| reachable_invoke lib c b :
    reachable b -> is_Close c = false -> reachable (snd (invoke lib c b)).

(** The invariant of the brush between calls. *)
Record well_formed (b : CanvasImageBrush) : Prop := mk_well_formed {
  wf_open : is_closed b = false;
  wf_one : exactly_one_populated b = true;
  wf_rect : m_isSourceRectSet b = true -> is_set (m_d2dImageBrush b) = true
}.

(** What a failed call has already done to the brush by the design of the
    source: [put_SourceRectangle] of null on an image brush has reset the
    rectangle and the flag before the downgrade that failed, as the downgrade
    asserts that the flag is clear; every other failed call has done nothing
    that this definition records. *)
Definition after_failed_call (c : Call) (b : CanvasImageBrush) : CanvasImageBrush :=
  if is_closed b then b
  else
    match c with
    | call_put_SourceRectangle None =>
        match m_d2dBitmapBrush b, m_d2dImageBrush b with
        | None, Some ib =>
            set_m_isSourceRectSet false
              (set_m_d2dImageBrush
                 (Some (ImageBrush.SetSourceRectangle defaultRect ib)) b)
        | _, _ => b
        end
    | _ => b
    end.

(** [put_Image] of an effect whose query for [ICanvasImageInternal] fails. *)
Definition effect_without_internal (c : Call) : bool :=
  match c with
  | call_put_Image (Some image) =>
      is_set (MaybeAs_IGraphicsEffect image) && FAILED (As_ICanvasImageInternal image)
  | _ => false
  end.

(** The brush without its pending DPI fixup. *)
Definition forget_fixup (b : CanvasImageBrush) : CanvasImageBrush :=
  set_m_effectNeedingDpiFixup None b.

(** [put_SourceRectangle] on a bitmap brush with a reference whose
    [get_Value] fails. *)
Definition unreadable_rectangle_on_bitmapBrush (c : Call) (b : CanvasImageBrush) : bool :=
  match c with
  | call_put_SourceRectangle (Some value) =>
      is_set (m_d2dBitmapBrush b) && FAILED (get_Value_hr value)
  | _ => false
  end.

(** The image in a general brush that lets it be downgraded. *)
Definition plain_bitmap_or_absent (image : option ID2D1Image) : bool :=
  match image with
  | None => true
  | Some (d2dBitmap _) => true
  | Some (d2dOtherImage _) => false
  end.

(** The bitmap handed to [SwitchToBitmapBrush] by the downgrade. *)
Definition bitmap_of_image (image : option ID2D1Image) : option ID2D1Bitmap1 :=
  match image with
  | Some (d2dBitmap bitmap) => Some bitmap
  | _ => None
  end.

(** The exception of the validation in [GetD2DBrush]. *)
Definition invalid_configuration : HResultException :=
  HResultException_of E_INVALIDARG (Some ImageBrushRequiresSourceRectangle).

(** The DPI fixup of [GetD2DBrush], as a function of the brush and the
    arguments: what it throws, if it runs and throws. *)
Definition dpi_fixup_failure (lib : Library) (b : CanvasImageBrush)
           (deviceContext : option ID2D1DeviceContext) (flags : GetBrushFlags)
  : option HResultException :=
  match m_effectNeedingDpiFixup b, deviceContext with
  | Some effect, Some deviceContext =>
      match lib_GetRealizedEffectNode lib effect deviceContext
              (if negb (Z.land flags GetBrushFlag.AlwaysInsertDpiCompensation
                        =? GetBrushFlag.None)
               then lib_MAGIC_FORCE_DPI_COMPENSATION_VALUE lib
               else lib_GetDpi lib deviceContext) with
      | inl e => Some e
      | inr _ => None
      end
  | _, _ => None
  end.

(** ** Further observations *)

(** The [HRESULT] of [put_Image] once the image brush holds the image: that
    of the query for [ICanvasImageInternal] when the image is an effect and the
    query fails, [S_OK] otherwise. *)
Definition effect_query (image : ICanvasImage) : HRESULT :=
  if is_set (MaybeAs_IGraphicsEffect image) && FAILED (As_ICanvasImageInternal image)
  then As_ICanvasImageInternal image
  else S_OK.

(** The effect [SetImage] records for the DPI fixup: none when the query for
    [ICanvasImageInternal] fails. *)
Definition recorded_effect (image : ICanvasImage) : option ICanvasImageInternal :=
  if FAILED (As_ICanvasImageInternal image) then None
  else MaybeAs_IGraphicsEffect image.

(** The getters and the two resolutions: the calls that only read. *)
Definition is_observer (c : Call) : bool :=
  match c with
  | call_get_Image _ | call_get_ExtendX _ | call_get_ExtendY _
  | call_get_SourceRectangle _ | call_get_Interpolation _
  | call_GetD2DBrush _ _ | call_GetResource _ _ _ _ => true
  | _ => false
  end.

Definition is_style_setter (c : Call) : bool :=
  match c with
  | call_put_ExtendX _ | call_put_ExtendY _ | call_put_Interpolation _ => true
  | _ => false
  end.

Definition is_put_Image (c : Call) : bool :=
  match c with call_put_Image _ => true | _ => false end.

Definition is_put_SourceRectangle (c : Call) : bool :=
  match c with call_put_SourceRectangle _ => true | _ => false end.

(** The native brush that is populated, as an [ID2D1Brush]. *)
Definition populated_brush (b : CanvasImageBrush) : option ID2D1Brush :=
  match m_d2dBitmapBrush b with
  | Some bb => Some (brush_of_bitmapBrush bb)
  | None => option_map brush_of_imageBrush (m_d2dImageBrush b)
  end.

(** The rectangle of the image brush, if there is one. *)
Definition native_rectangle (b : CanvasImageBrush) : option D2D1_RECT_F :=
  option_map ImageBrush.GetSourceRectangle (m_d2dImageBrush b).

(** A device whose new brushes are bound to what they were created on. *)
Definition device_binds (dev : ICanvasDeviceInternal) : Prop :=
  (forall image created,
      CreateImageBrush dev image = inr created -> ImageBrush.GetImage created = image) /\
  (forall bitmap created,
      CreateBitmapBrush dev bitmap = inr created ->
      BitmapBrush.GetBitmap created = bitmap).

(** Whether [SetImage] routes a non-null image to the bitmap brush. *)
Definition uses_bitmapBrush (image : ICanvasImage) (b : CanvasImageBrush) : bool :=
  is_set (MaybeAs_ICanvasBitmap image) && negb (m_isSourceRectSet b).

(** The brushes a client can hold at any time: as [reachable], and through
    [Close] as well and whatever is called after it. *)
Inductive obtainable : CanvasImageBrush -> Prop :=
| obtainable_reachable b : reachable b -> obtainable b
| obtainable_invoke lib c b : obtainable b -> obtainable (snd (invoke lib c b)).

(** ** Concrete collaborators, for the examples *)

Module Scenario.

(** binary32 constants *)
Definition one : FLOAT := S754_finite false 8388608 (-23).

Definition identity : D2D1_MATRIX_3X2_F :=
  mkMatrix one FLOAT_zero FLOAT_zero one FLOAT_zero FLOAT_zero.

(** The rectangle conversions of the library, which live outside this
    file, in binary32 arithmetic: the edges of a rectangle are X, Y,
    X + Width and Y + Height, and its size is right - left and
    bottom - top. *)
Definition ToD2DRect (r : Rect) : D2D1_RECT_F :=
  mkD2DRect (rect_X r) (rect_Y r)
            (SFadd 24 128 (rect_X r) (rect_Width r))
            (SFadd 24 128 (rect_Y r) (rect_Height r)).

Definition FromD2DRect (r : D2D1_RECT_F) : Rect :=
  mkRect (rect_left r) (rect_top r)
         (SFsub 24 128 (rect_right r) (rect_left r))
         (SFsub 24 128 (rect_bottom r) (rect_top r)).

(** D2D1_EXTEND_MODE_WRAP, D2D1_EXTEND_MODE_MIRROR, D2D1_INTERPOLATION_MODE_CUBIC *)
Definition Wrap : CanvasEdgeBehavior := 1.
Definition Mirror : CanvasEdgeBehavior := 2.
Definition Cubic : CanvasImageInterpolation := 2.

(** DXGI_ERROR_DEVICE_REMOVED, 0x887A0005 *)
Definition DXGI_ERROR_DEVICE_REMOVED : HRESULT := -2005270523.

(** A device that resolves every image and creates every brush, with the
    defaults of Direct2D. *)
Definition device : ICanvasDeviceInternal :=
  mkDevice
    (fun image =>
       match MaybeAs_ICanvasBitmap image with
       | Some bitmap => inr (d2dBitmap bitmap)
       | None => inr (d2dOtherImage (image_identity image))
       end)
    (fun image => inr (ImageBrush.mk image 0 0 1 one identity defaultRect))
    (fun bitmap => inr (BitmapBrush.mk bitmap 0 0 1 one identity)).

(** A device that has been removed: every service throws. *)
Definition lost_device : ICanvasDeviceInternal :=
  mkDevice
    (fun _ => inl (HResultException_of DXGI_ERROR_DEVICE_REMOVED None))
    (fun _ => inl (HResultException_of DXGI_ERROR_DEVICE_REMOVED None))
    (fun _ => inl (HResultException_of DXGI_ERROR_DEVICE_REMOVED None)).

Definition library_with (dev : ICanvasDeviceInternal) : Library :=
  mkLibrary ToD2DRect FromD2DRect
            (fun _ => S754_finite false 12582912 (-17))   (* 96 DPI *)
            FLOAT_zero
            (fun _ _ _ => inr tt)
            (fun _ image =>
               match image with
               | d2dBitmap bitmap => inr (mkCanvasImage bitmap (Some bitmap) None)
               | d2dOtherImage id => inr (mkCanvasImage id None (Some id))
               end)
            (fun owner device =>
               if N.eqb owner device then inr tt
               else inl (HResultException_of E_INVALIDARG None))
            (fun _ _ => S_OK)
            dev.

Definition library : Library := library_with device.
Definition library_lost : Library := library_with lost_device.

(** Images a client assigns. *)
Definition a_bitmap : ICanvasImage := mkCanvasImage 7 (Some 7%N) None.
Definition an_effect : ICanvasImage := mkCanvasImage 9 None (Some 9%N).

Definition unit_square : Rect := mkRect FLOAT_zero FLOAT_zero one one.

(** An effect and a bitmap of a foreign class, without the internal
    interfaces of the library. *)
Definition foreign_effect : ICanvasImage :=
  Build_ICanvasImage 13 None S_OK (Some 13%N) E_NOINTERFACE.
Definition foreign_bitmap : ICanvasImage :=
  Build_ICanvasImage 14 (Some 14%N) E_NOINTERFACE None S_OK.

(** A rectangle whose right edge is not a binary32 number: X = 2^24, width 1. *)
Definition far_rectangle : Rect :=
  mkRect (S754_finite false 8388608 1) FLOAT_zero one one.

(** A reference whose [get_Value] fails. *)
Definition unreadable : IReference_Rect := mkReference E_INVALIDARG unit_square.

(** A brush from the factory without an image, and one with [a_bitmap]. *)
Definition empty_brush : CanvasImageBrush :=
  snd (CanvasImageBrush_of_image device 1%N None).

Definition bitmap_brush : CanvasImageBrush :=
  snd (CanvasImageBrush_of_image device 1%N (Some a_bitmap)).

(** A brush from the factory with [an_effect]: a general image brush with a
    pending DPI fixup; and the same with a source rectangle. *)
Definition effect_brush : CanvasImageBrush :=
  snd (CanvasImageBrush_of_image device 1%N (Some an_effect)).

Definition cropped_effect_brush : CanvasImageBrush :=
  snd (put_SourceRectangle ToD2DRect device (Some (Nullable unit_square)) effect_brush).

(** [bitmap_brush] with a source rectangle: a general image brush bound to
    a plain bitmap. *)
Definition cropped_bitmap_brush : CanvasImageBrush :=
  snd (put_SourceRectangle ToD2DRect device (Some (Nullable unit_square)) bitmap_brush).

End Scenario.

(** ** Running a member function *)

Ltac unfold_monad :=
  unfold ExceptionBoundary, ExceptionBoundary_out, hresult_of,
    of_d2dBitmapBrush, on_d2dBitmapBrush, of_d2dImageBrush, on_d2dImageBrush,
    SetResource, ThrowIfClosed, EnsureNotClosed, CheckAndClearOutPointer,
    CheckInPointer, ThrowIfFailed, ThrowHR, call, deref, throw, modify, gets,
    bind, ret in *.

Ltac unfold_members :=
  unfold invoke, resolveForDrawing, get_Image, put_Image, get_ExtendX, put_ExtendX,
    get_ExtendY, put_ExtendY, get_SourceRectangle, put_SourceRectangle,
    get_Interpolation, put_Interpolation, GetD2DBrush, GetResource, Close,
    GetD2DImage_of_brush, GetD2DRectFromRectReference, SetImage,
    TrySwitchFromImageBrushToBitmapBrush, SwitchToBitmapBrush, SwitchToImageBrush in *.

Ltac run_member := unfold_members; unfold_monad; simpl in *.

(** Case analysis on the next thing the code tests: the innermost scrutinee. *)
Ltac innermost x :=
  lazymatch x with
  | context [match ?y with _ => _ end] => innermost y
  | _ => x
  end.

Ltac branch :=
  match goal with
  | |- context [match ?x with _ => _ end] =>
      let y := innermost x in destruct y eqn:?; simpl in *
  end.

(** The same case analysis in a hypothesis. *)
Ltac branch_in H :=
  match type of H with
  | context [match ?x with _ => _ end] =>
      let y := innermost x in destruct y eqn:?; simpl in H
  end.

Ltac solve_well_formed :=
  constructor; unfold is_closed, exactly_one_populated; simpl; auto; try discriminate.

Ltac brush_fields b :=
  destruct b as [device resource bitmapBrush imageBrush isSourceRectSet effect];
  simpl in *.

(** ** Exceptions and their codes *)

Lemma GetHr_of_failed (hr : HRESULT) (message : option Strings) :
  FAILED hr = true ->
  GetHr (HResultException_of hr message) = hr.
Proof.
  unfold FAILED. destruct hr; intros H; try discriminate. reflexivity.
Qed.

(** ** Assigning a null image *)

Section NullImage.

Variable dev : ICanvasDeviceInternal.

Lemma SetImage_null_bitmapBrush (b : CanvasImageBrush) (bb : ID2D1BitmapBrush1) :
  m_d2dBitmapBrush b = Some bb ->
  SetImage dev None b =
  (Normal tt,
   set_m_d2dBitmapBrush (Some (BitmapBrush.SetBitmap None bb))
     (set_m_effectNeedingDpiFixup None b)).
Proof.
  brush_fields b. intros ->. reflexivity.
Qed.

Lemma SetImage_null_imageBrush (b : CanvasImageBrush) (ib : ID2D1ImageBrush) :
  m_d2dBitmapBrush b = None ->
  m_d2dImageBrush b = Some ib ->
  SetImage dev None b =
  (Normal tt,
   set_m_d2dImageBrush (Some (ImageBrush.SetImage None ib))
     (set_m_effectNeedingDpiFixup None b)).
Proof.
  brush_fields b. intros -> ->. reflexivity.
Qed.

(** On an open brush [put_Image] is [SetImage] behind the exception boundary. *)
Lemma put_Image_open (b : CanvasImageBrush) (value : option ICanvasImage) :
  is_closed b = false ->
  put_Image dev value b = ExceptionBoundary (SetImage dev value) b.
Proof.
  brush_fields b. unfold is_closed. simpl.
  destruct device; [reflexivity | discriminate].
Qed.

(** C8. [put_Image] with a null image never changes which native brush is
    populated and never changes [m_isSourceRectSet], whatever the state of
    the brush; on an open brush with a bitmap brush it returns [S_OK] having
    cleared the pending DPI fixup and the bitmap of that bitmap brush, and on
    an open brush with only an image brush it returns [S_OK] having cleared
    the pending DPI fixup and the image of that image brush; nothing else
    changes. *)
Theorem put_Image_null_frame (b : CanvasImageBrush) :
  let b' := snd (put_Image dev None b) in
  (representation b' = representation b /\
   m_isSourceRectSet b' = m_isSourceRectSet b) /\
  (is_closed b = false ->
   (forall bb, m_d2dBitmapBrush b = Some bb ->
      put_Image dev None b =
      (Normal S_OK,
       set_m_d2dBitmapBrush (Some (BitmapBrush.SetBitmap None bb))
         (set_m_effectNeedingDpiFixup None b))) /\
   (forall ib, m_d2dBitmapBrush b = None -> m_d2dImageBrush b = Some ib ->
      put_Image dev None b =
      (Normal S_OK,
       set_m_d2dImageBrush (Some (ImageBrush.SetImage None ib))
         (set_m_effectNeedingDpiFixup None b))) /\
   (exactly_one_populated b = true ->
      fst (put_Image dev None b) = Normal S_OK /\
      m_effectNeedingDpiFixup b' = None /\
      bound_image b' = None /\
      style_of b' = style_of b)).
Proof.
  split.
  - (* the frame, in every state *)
    brush_fields b. unfold representation.
    destruct device, bitmapBrush, imageBrush; split; reflexivity.
  - intros Hopen. rewrite (put_Image_open b None Hopen).
    split; [| split].
    + intros bb Hbb. unfold ExceptionBoundary.
      rewrite (SetImage_null_bitmapBrush b bb Hbb). reflexivity.
    + intros ib Hbb Hib. unfold ExceptionBoundary.
      rewrite (SetImage_null_imageBrush b ib Hbb Hib). reflexivity.
    + unfold exactly_one_populated, ExceptionBoundary. intros Hone.
      destruct (m_d2dBitmapBrush b) as [bb |] eqn:Hbb.
      * rewrite (SetImage_null_bitmapBrush b bb Hbb).
        unfold bound_image, style_of. simpl. rewrite Hbb. repeat split.
      * destruct (m_d2dImageBrush b) as [ib |] eqn:Hib; [| discriminate].
        rewrite (SetImage_null_imageBrush b ib Hbb Hib).
        unfold bound_image, style_of. simpl. rewrite Hbb, Hib. repeat split.
Qed.

End NullImage.

(** The null-image theorem at a general image brush from the factory, with a
    pending DPI fixup. *)
Lemma put_Image_null_frame_witness :
  is_closed Scenario.effect_brush = false /\
  exactly_one_populated Scenario.effect_brush = true /\
  fst (put_Image Scenario.device None Scenario.effect_brush) = Normal S_OK /\
  m_effectNeedingDpiFixup (snd (put_Image Scenario.device None Scenario.effect_brush)) = None /\
  bound_image (snd (put_Image Scenario.device None Scenario.effect_brush)) = None /\
  representation (snd (put_Image Scenario.device None Scenario.effect_brush))
  = GeneralImageBrushRepresentation.
Proof.
  destruct (put_Image_null_frame Scenario.device Scenario.effect_brush)
    as [_ Hopen].
  destruct (Hopen eq_refl) as (_ & _ & Hone).
  destruct (Hone eq_refl) as (Hok & Hfix & Himg & _).
  repeat split; first [assumption | reflexivity].
Defined.

(** ** Resolving the brush for drawing *)

Section ResolveForDrawing.

Variable lib : Library.

Lemma GetD2DBrush_bitmapBrush (b : CanvasImageBrush) (bb : ID2D1BitmapBrush1)
      deviceContext flags :
  is_closed b = false ->
  m_d2dBitmapBrush b = Some bb ->
  resolveForDrawing lib deviceContext flags b
  = (Normal (Some (brush_of_bitmapBrush bb)), b).
Proof.
  brush_fields b. unfold is_closed. simpl. intros Hopen ->.
  destruct device; [reflexivity | discriminate].
Qed.

Lemma GetD2DBrush_validated (b : CanvasImageBrush) deviceContext flags :
  is_closed b = false ->
  m_d2dBitmapBrush b = None ->
  m_isSourceRectSet b = false ->
  Z.land flags GetBrushFlag.NoValidation = GetBrushFlag.None ->
  resolveForDrawing lib deviceContext flags b = (Throw invalid_configuration, b).
Proof.
  brush_fields b. unfold is_closed. simpl. intros Hopen -> -> Hflags.
  destruct device; [| discriminate].
  run_member. rewrite Hflags. reflexivity.
Qed.

Lemma GetD2DBrush_passes_validation (b : CanvasImageBrush) deviceContext flags :
  is_closed b = false ->
  m_d2dBitmapBrush b = None ->
  (m_isSourceRectSet b = true \/
   Z.land flags GetBrushFlag.NoValidation <> GetBrushFlag.None) ->
  resolveForDrawing lib deviceContext flags b
  = match dpi_fixup_failure lib b deviceContext flags with
    | Some e => (Throw e, b)
    | None => (Normal (option_map brush_of_imageBrush (m_d2dImageBrush b)), b)
    end.
Proof.
  brush_fields b. unfold is_closed, dpi_fixup_failure. simpl.
  intros Hopen -> Hpass.
  destruct device; [| discriminate].
  run_member.
  assert (Hskip :
    (Z.land flags GetBrushFlag.NoValidation =? GetBrushFlag.None) = true ->
    isSourceRectSet = true).
  { intros Hbit. destruct Hpass as [Hset | Hflag]; [exact Hset |].
    apply Z.eqb_eq in Hbit. contradiction. }
  destruct (Z.land flags GetBrushFlag.NoValidation =? GetBrushFlag.None);
    [rewrite (Hskip eq_refl) |]; simpl;
    destruct effect, deviceContext; simpl; try reflexivity;
    destruct (lib_GetRealizedEffectNode lib _ _ _); reflexivity.
Qed.

(** C3. On an open brush in the general image brush representation with no
    source rectangle set, [GetD2DBrush] throws [E_INVALIDARG] with the message
    that an image brush requires a source rectangle, and leaves the brush as it
    was, whenever the [NoValidation] bit is not in the flags; with that bit it
    skips the validation and returns the image brush, unless the DPI fixup of a
    pending effect throws.  On an open brush in the bitmap brush representation
    it returns the bitmap brush itself, for every device context and every
    flags. *)
Theorem GetD2DBrush_validation (b : CanvasImageBrush) deviceContext flags :
  is_closed b = false ->
  (forall ib,
      m_d2dBitmapBrush b = None -> m_d2dImageBrush b = Some ib ->
      m_isSourceRectSet b = false ->
      (Z.land flags GetBrushFlag.NoValidation = GetBrushFlag.None ->
       resolveForDrawing lib deviceContext flags b = (Throw invalid_configuration, b)) /\
      (Z.land flags GetBrushFlag.NoValidation <> GetBrushFlag.None ->
       resolveForDrawing lib deviceContext flags b
       = match dpi_fixup_failure lib b deviceContext flags with
         | Some e => (Throw e, b)
         | None => (Normal (Some (brush_of_imageBrush ib)), b)
         end)) /\
  (forall bb,
      m_d2dBitmapBrush b = Some bb ->
      resolveForDrawing lib deviceContext flags b
      = (Normal (Some (brush_of_bitmapBrush bb)), b)).
Proof.
  intros Hopen. split.
  - intros ib Hbb Hib Hrect. split; intros Hflags.
    + now apply GetD2DBrush_validated.
    + rewrite GetD2DBrush_passes_validation by auto.
      rewrite Hib. reflexivity.
  - intros bb Hbb. now apply GetD2DBrush_bitmapBrush.
Qed.

End ResolveForDrawing.

(** The validation at the general image brush the factory makes for an
    effect, which has no source rectangle, and at a bitmap brush. *)
Lemma GetD2DBrush_validation_witness :
  (resolveForDrawing Scenario.library (Some 3%N) GetBrushFlag.None Scenario.effect_brush
   = (Throw invalid_configuration, Scenario.effect_brush) /\
   resolveForDrawing Scenario.library (Some 3%N) GetBrushFlag.NoValidation
                     Scenario.effect_brush
   = (Normal (option_map brush_of_imageBrush (m_d2dImageBrush Scenario.effect_brush)),
      Scenario.effect_brush)) /\
  resolveForDrawing Scenario.library (Some 3%N) GetBrushFlag.None Scenario.bitmap_brush
  = (Normal (option_map brush_of_bitmapBrush (m_d2dBitmapBrush Scenario.bitmap_brush)),
     Scenario.bitmap_brush).
Proof.
  pose proof (GetD2DBrush_validation Scenario.library) as H.
  split; [split |].
  - destruct (H Scenario.effect_brush (Some 3%N) GetBrushFlag.None eq_refl) as [Hg _].
    destruct (Hg _ eq_refl eq_refl eq_refl) as [Hthrow _].
    exact (Hthrow eq_refl).
  - destruct (H Scenario.effect_brush (Some 3%N) GetBrushFlag.NoValidation eq_refl)
      as [Hg _].
    destruct (Hg _ eq_refl eq_refl eq_refl) as [_ Hskip].
    refine (Hskip _). discriminate.
  - destruct (H Scenario.bitmap_brush (Some 3%N) GetBrushFlag.None eq_refl) as [_ Hb].
    exact (Hb _ eq_refl).
Defined.

(** ** A brush that wraps a native image brush *)

(** C10. The brush the interop constructor makes around an existing
    [ID2D1ImageBrush] has [m_isSourceRectSet] true from the start:
    [get_SourceRectangle] returns the rectangle the native brush carries,
    whatever it is, and [GetD2DBrush] returns the native brush for every
    device context and every flags, so with the validation on as well. *)
Theorem wrapped_imageBrush_has_source_rectangle
        (FromD2DRect : D2D1_RECT_F -> Rect)
        (GetDpi : ID2D1DeviceContext -> FLOAT)
        (MAGIC_FORCE_DPI_COMPENSATION_VALUE : FLOAT)
        (GetRealizedEffectNode :
           ICanvasImageInternal -> ID2D1DeviceContext -> FLOAT -> HResultException + unit)
        (device : ICanvasDevice) (imageBrush : ID2D1ImageBrush) :
  let b := CanvasImageBrush_of_imageBrush device imageBrush in
  m_isSourceRectSet b = true /\
  representation b = GeneralImageBrushRepresentation /\
  get_SourceRectangle FromD2DRect out_valid b
  = (Normal (S_OK, Some (Some (FromD2DRect (ImageBrush.GetSourceRectangle imageBrush)))),
     b) /\
  forall deviceContext flags,
    GetD2DBrush GetDpi MAGIC_FORCE_DPI_COMPENSATION_VALUE GetRealizedEffectNode
                deviceContext flags b
    = (Normal (Some (brush_of_imageBrush imageBrush)), b).
Proof.
  simpl. repeat split.
  intros deviceContext flags. run_member.
  destruct (Z.land flags GetBrushFlag.NoValidation =? GetBrushFlag.None); reflexivity.
Qed.

(** ** After Close *)

Lemma Close_releases (b : CanvasImageBrush) :
  fst (Close b) = Normal S_OK /\
  is_closed (snd (Close b)) = true /\
  m_d2dBitmapBrush (snd (Close b)) = None /\
  m_d2dImageBrush (snd (Close b)) = None.
Proof. repeat split. Qed.

Lemma invoke_closed (lib : Library) (c : Call) (b : CanvasImageBrush) :
  is_closed b = true ->
  is_Close c = false ->
  invoke lib c b
  = (Normal (if null_out_pointer c then E_INVALIDARG else RO_E_CLOSED), b).
Proof.
  brush_fields b. unfold is_closed. simpl. intros Hclosed Hc.
  destruct device; [discriminate |].
  destruct c; try discriminate; try destruct value; try destruct resource0;
    reflexivity.
Qed.

(** C9. [Close] returns [S_OK] having released both native brushes,
    whichever was populated.  Every later call of an accessor fails with
    [RO_E_CLOSED] and leaves the closed brush as it is: every setter,
    [GetD2DBrush], and every getter called with an out pointer to return
    through.  (A getter called with a null out pointer rejects the pointer
    before it looks at the brush, with [E_INVALIDARG].) *)
Theorem accessors_after_Close (lib : Library) (c : Call) (b : CanvasImageBrush) :
  is_Close c = false ->
  (fst (Close b) = Normal S_OK /\
   m_d2dBitmapBrush (snd (Close b)) = None /\
   m_d2dImageBrush (snd (Close b)) = None) /\
  FAILED RO_E_CLOSED = true /\
  (null_out_pointer c = false ->
   invoke lib c (snd (Close b)) = (Normal RO_E_CLOSED, snd (Close b))) /\
  (null_out_pointer c = true ->
   invoke lib c (snd (Close b)) = (Normal E_INVALIDARG, snd (Close b))).
Proof.
  intros Hc.
  destruct (Close_releases b) as (Hok & Hclosed & Hbb & Hib).
  pose proof (invoke_closed lib c (snd (Close b)) Hclosed Hc) as Hinvoke.
  repeat split; try assumption; intros Hnull; rewrite Hnull in Hinvoke; exact Hinvoke.
Qed.

(** Every kind of accessor on a bitmap brush from the factory that has
    been closed. *)
Lemma accessors_after_Close_witness :
  Forall (fun c =>
            invoke Scenario.library c (snd (Close Scenario.bitmap_brush))
            = (Normal RO_E_CLOSED, snd (Close Scenario.bitmap_brush)))
         [ call_get_Image out_valid;
           call_put_Image (Some Scenario.an_effect);
           call_get_ExtendX out_valid;
           call_put_ExtendX Scenario.Wrap;
           call_get_SourceRectangle out_valid;
           call_put_SourceRectangle None;
           call_get_Interpolation out_valid;
           call_put_Interpolation Scenario.Cubic;
           call_GetD2DBrush None GetBrushFlag.None ].
Proof.
  assert (Hclosed : forall c,
             is_Close c = false -> null_out_pointer c = false ->
             invoke Scenario.library c (snd (Close Scenario.bitmap_brush))
             = (Normal RO_E_CLOSED, snd (Close Scenario.bitmap_brush))).
  { intros c Hc Hnull.
    exact (proj1 (proj2 (proj2
             (accessors_after_Close Scenario.library c Scenario.bitmap_brush Hc)))
             Hnull). }
  repeat (apply Forall_cons; [apply Hclosed; reflexivity |]).
  apply Forall_nil.
Defined.

(** ** The two switches *)

Section Switches.

Variable dev : ICanvasDeviceInternal.

Lemma SwitchToImageBrush_copies (b : CanvasImageBrush) (old : ID2D1BitmapBrush1)
      (image : option ID2D1Image) (created : ID2D1ImageBrush) :
  is_closed b = false ->
  m_d2dBitmapBrush b = Some old ->
  CreateImageBrush dev image = inr created ->
  SwitchToImageBrush dev image b
  = (Normal tt,
     set_m_resource (Some resource_imageBrush)
       (set_m_d2dBitmapBrush None
          (set_m_d2dImageBrush (Some (copy_to_imageBrush old created)) b))).
Proof.
  brush_fields b. unfold is_closed. simpl. intros Hopen -> Hcreate.
  destruct device; [| discriminate].
  run_member. rewrite Hcreate. reflexivity.
Qed.

Lemma SwitchToBitmapBrush_copies (b : CanvasImageBrush) (old : ID2D1ImageBrush)
      (bitmap : option ID2D1Bitmap1) (created : ID2D1BitmapBrush1) :
  is_closed b = false ->
  m_d2dImageBrush b = Some old ->
  CreateBitmapBrush dev bitmap = inr created ->
  SwitchToBitmapBrush dev bitmap b
  = (Normal tt,
     set_m_resource (Some resource_bitmapBrush)
       (set_m_d2dImageBrush None
          (set_m_d2dBitmapBrush (Some (copy_to_bitmapBrush old created)) b))).
Proof.
  brush_fields b. unfold is_closed. simpl. intros Hopen -> Hcreate.
  destruct device; [| discriminate].
  run_member. rewrite Hcreate. reflexivity.
Qed.

(** A switch whose native brush cannot be created throws before it writes. *)
Lemma SwitchToImageBrush_throws (b : CanvasImageBrush)
      (image : option ID2D1Image) (e : HResultException) :
  is_closed b = false ->
  CreateImageBrush dev image = inl e ->
  SwitchToImageBrush dev image b = (Throw e, b).
Proof.
  brush_fields b. unfold is_closed. simpl. intros Hopen Hcreate.
  destruct device; [| discriminate].
  run_member. rewrite Hcreate. reflexivity.
Qed.

Lemma SwitchToBitmapBrush_throws (b : CanvasImageBrush)
      (bitmap : option ID2D1Bitmap1) (e : HResultException) :
  is_closed b = false ->
  CreateBitmapBrush dev bitmap = inl e ->
  SwitchToBitmapBrush dev bitmap b = (Throw e, b).
Proof.
  brush_fields b. unfold is_closed. simpl. intros Hopen Hcreate.
  destruct device; [| discriminate].
  run_member. rewrite Hcreate. reflexivity.
Qed.

(** The copies carry the style over. *)
Lemma style_of_copy_to_imageBrush (old : ID2D1BitmapBrush1) (created : ID2D1ImageBrush) :
  style_of_imageBrush (copy_to_imageBrush old created) = style_of_bitmapBrush old /\
  ImageBrush.GetImage (copy_to_imageBrush old created) = ImageBrush.GetImage created /\
  ImageBrush.GetSourceRectangle (copy_to_imageBrush old created)
  = ImageBrush.GetSourceRectangle created.
Proof. repeat split. Qed.

Lemma style_of_copy_to_bitmapBrush (old : ID2D1ImageBrush) (created : ID2D1BitmapBrush1) :
  style_of_bitmapBrush (copy_to_bitmapBrush old created) = style_of_imageBrush old /\
  BitmapBrush.GetBitmap (copy_to_bitmapBrush old created) = BitmapBrush.GetBitmap created.
Proof. repeat split. Qed.

(** The three style setters on a bitmap brush, then the assignment of an
    image that is not a bitmap. *)
Lemma style_after_switch_to_imageBrush
      (b : CanvasImageBrush) (old : ID2D1BitmapBrush1)
      (x y : CanvasEdgeBehavior) (i : CanvasImageInterpolation)
      (image : ICanvasImage) (d2dImage : ID2D1Image) (created : ID2D1ImageBrush) :
  is_closed b = false ->
  m_d2dBitmapBrush b = Some old ->
  m_d2dImageBrush b = None ->
  MaybeAs_ICanvasBitmap image = None ->
  GetD2DImage dev image = inr d2dImage ->
  CreateImageBrush dev (Some d2dImage) = inr created ->
  let b1 := snd (put_Interpolation i (snd (put_ExtendY y (snd (put_ExtendX x b))))) in
  let styled := BitmapBrush.SetInterpolationMode1 i
                  (BitmapBrush.SetExtendModeY y (BitmapBrush.SetExtendModeX x old)) in
  exists b2,
    put_Image dev (Some image) b1 = (Normal (effect_query image), b2) /\
    m_d2dBitmapBrush b2 = None /\
    m_d2dImageBrush b2 = Some (copy_to_imageBrush styled created) /\
    get_ExtendX out_valid b2 = (Normal (S_OK, Some x), b2) /\
    get_ExtendY out_valid b2 = (Normal (S_OK, Some y), b2) /\
    get_Interpolation out_valid b2 = (Normal (S_OK, Some i), b2) /\
    style_of b2 = style_of b1.
Proof.
  brush_fields b. unfold is_closed. simpl.
  intros Hopen -> -> Hbitmap Hresolve Hcreate.
  destruct device; [| discriminate].
  unfold effect_query.
  run_member. rewrite Hbitmap. simpl. rewrite Hresolve. simpl. rewrite Hcreate. simpl.
  destruct (MaybeAs_IGraphicsEffect image); simpl;
    [destruct (FAILED (As_ICanvasImageInternal image)) eqn:Hquery; simpl;
     rewrite ?GetHr_of_failed by exact Hquery |];
    eexists; repeat split; reflexivity.
Qed.

(** The three style setters on a general image brush without a source
    rectangle, then the assignment of a bitmap. *)
Lemma style_after_switch_to_bitmapBrush
      (b : CanvasImageBrush) (old : ID2D1ImageBrush)
      (x y : CanvasEdgeBehavior) (i : CanvasImageInterpolation)
      (image : ICanvasImage) (bitmap : ID2D1Bitmap1) (created : ID2D1BitmapBrush1) :
  is_closed b = false ->
  m_d2dBitmapBrush b = None ->
  m_d2dImageBrush b = Some old ->
  m_isSourceRectSet b = false ->
  MaybeAs_ICanvasBitmap image = Some bitmap ->
  FAILED (As_ICanvasBitmapInternal image) = false ->
  CreateBitmapBrush dev (Some bitmap) = inr created ->
  let b1 := snd (put_Interpolation i (snd (put_ExtendY y (snd (put_ExtendX x b))))) in
  let styled := ImageBrush.SetInterpolationMode i
                  (ImageBrush.SetExtendModeY y (ImageBrush.SetExtendModeX x old)) in
  exists b2,
    put_Image dev (Some image) b1 = (Normal S_OK, b2) /\
    m_d2dImageBrush b2 = None /\
    m_d2dBitmapBrush b2 = Some (copy_to_bitmapBrush styled created) /\
    get_ExtendX out_valid b2 = (Normal (S_OK, Some x), b2) /\
    get_ExtendY out_valid b2 = (Normal (S_OK, Some y), b2) /\
    get_Interpolation out_valid b2 = (Normal (S_OK, Some i), b2) /\
    style_of b2 = style_of b1.
Proof.
  brush_fields b. unfold is_closed. simpl.
  intros Hopen -> -> -> Hbitmap Hquery Hcreate.
  destruct device; [| discriminate].
  run_member. rewrite Hbitmap. simpl. rewrite Hquery. simpl. rewrite Hcreate. simpl.
  eexists; repeat split; reflexivity.
Qed.

(** C2. A switch to the image brush sets on the brush the device created, in
    this order, the extend mode X, the extend mode Y, the interpolation mode,
    the opacity and the transform of the bitmap brush, then releases the
    bitmap brush; the switch to the bitmap brush does the same from the image
    brush.  So on an open brush in the bitmap brush representation, after
    [put_ExtendX x], [put_ExtendY y] and [put_Interpolation i] with any
    values, [put_Image] of an image that is not a bitmap (which the device
    resolves and creates a brush for) leaves a general image brush on which
    [get_ExtendX], [get_ExtendY] and [get_Interpolation] return x, y and i; it
    returns [S_OK], or, having switched, the failure of the query for
    [ICanvasImageInternal] on an effect.  And the same from a general image
    brush without a source rectangle to the bitmap brush, by [put_Image] of a
    bitmap that gives its [ICanvasBitmapInternal], which returns [S_OK]. *)
Theorem style_survives_switch
        (b : CanvasImageBrush) (x y : CanvasEdgeBehavior) (i : CanvasImageInterpolation) :
  is_closed b = false ->
  (forall old image created,
      m_d2dBitmapBrush b = Some old ->
      CreateImageBrush dev image = inr created ->
      SwitchToImageBrush dev image b
      = (Normal tt,
         set_m_resource (Some resource_imageBrush)
           (set_m_d2dBitmapBrush None
              (set_m_d2dImageBrush (Some (copy_to_imageBrush old created)) b)))) /\
  (forall old bitmap created,
      m_d2dImageBrush b = Some old ->
      CreateBitmapBrush dev bitmap = inr created ->
      SwitchToBitmapBrush dev bitmap b
      = (Normal tt,
         set_m_resource (Some resource_bitmapBrush)
           (set_m_d2dImageBrush None
              (set_m_d2dBitmapBrush (Some (copy_to_bitmapBrush old created)) b)))) /\
  let b1 := snd (put_Interpolation i (snd (put_ExtendY y (snd (put_ExtendX x b))))) in
  (forall image d2dImage created,
      representation b = BitmapBrushRepresentation ->
      MaybeAs_ICanvasBitmap image = None ->
      GetD2DImage dev image = inr d2dImage ->
      CreateImageBrush dev (Some d2dImage) = inr created ->
      exists b2,
        put_Image dev (Some image) b1 = (Normal (effect_query image), b2) /\
        representation b2 = GeneralImageBrushRepresentation /\
        get_ExtendX out_valid b2 = (Normal (S_OK, Some x), b2) /\
        get_ExtendY out_valid b2 = (Normal (S_OK, Some y), b2) /\
        get_Interpolation out_valid b2 = (Normal (S_OK, Some i), b2) /\
        style_of b2 = style_of b1) /\
  (forall image bitmap created,
      representation b = GeneralImageBrushRepresentation ->
      m_isSourceRectSet b = false ->
      MaybeAs_ICanvasBitmap image = Some bitmap ->
      FAILED (As_ICanvasBitmapInternal image) = false ->
      CreateBitmapBrush dev (Some bitmap) = inr created ->
      exists b2,
        put_Image dev (Some image) b1 = (Normal S_OK, b2) /\
        representation b2 = BitmapBrushRepresentation /\
        get_ExtendX out_valid b2 = (Normal (S_OK, Some x), b2) /\
        get_ExtendY out_valid b2 = (Normal (S_OK, Some y), b2) /\
        get_Interpolation out_valid b2 = (Normal (S_OK, Some i), b2) /\
        style_of b2 = style_of b1).
Proof.
  intros Hopen. split; [| split; [| split]].
  - intros old image created Hold Hcreate. now apply SwitchToImageBrush_copies.
  - intros old bitmap created Hold Hcreate. now apply SwitchToBitmapBrush_copies.
  - intros image d2dImage created Hrep Himage Hresolve Hcreate.
    unfold representation in Hrep.
    destruct (m_d2dBitmapBrush b) as [old |] eqn:Hbb;
      destruct (m_d2dImageBrush b) eqn:Hib; try discriminate.
    destruct (style_after_switch_to_imageBrush b old x y i image d2dImage created)
      as (b2 & Hput & Hbb2 & Hib2 & Hx & Hy & Hi & Hstyle); auto.
    exists b2. repeat split; auto.
    unfold representation. rewrite Hbb2, Hib2. reflexivity.
  - intros image bitmap created Hrep Hrect Himage Hquery Hcreate.
    unfold representation in Hrep.
    destruct (m_d2dBitmapBrush b) eqn:Hbb;
      destruct (m_d2dImageBrush b) as [old |] eqn:Hib; try discriminate.
    destruct (style_after_switch_to_bitmapBrush b old x y i image bitmap created)
      as (b2 & Hput & Hib2 & Hbb2 & Hx & Hy & Hi & Hstyle); auto.
    exists b2. repeat split; auto.
    unfold representation. rewrite Hbb2, Hib2. reflexivity.
Qed.

End Switches.

(** Wrap, mirror and cubic on a bitmap brush, then an effect. *)
Lemma style_survives_switch_witness :
  let b1 := snd (put_Interpolation Scenario.Cubic
                   (snd (put_ExtendY Scenario.Mirror
                      (snd (put_ExtendX Scenario.Wrap Scenario.bitmap_brush))))) in
  exists b2,
    put_Image Scenario.device (Some Scenario.an_effect) b1 = (Normal S_OK, b2) /\
    representation b2 = GeneralImageBrushRepresentation /\
    get_ExtendX out_valid b2 = (Normal (S_OK, Some Scenario.Wrap), b2) /\
    get_ExtendY out_valid b2 = (Normal (S_OK, Some Scenario.Mirror), b2) /\
    get_Interpolation out_valid b2 = (Normal (S_OK, Some Scenario.Cubic), b2).
Proof.
  destruct (style_survives_switch Scenario.device Scenario.bitmap_brush
              Scenario.Wrap Scenario.Mirror Scenario.Cubic eq_refl)
    as (_ & _ & Hforward & _).
  destruct (Hforward Scenario.an_effect _ _ eq_refl eq_refl eq_refl eq_refl)
    as (b2 & Hput & Hrep & Hx & Hy & Hi & _).
  exists b2. repeat split; assumption.
Defined.

(** ** The source rectangle *)

Section SourceRectangle.

Variable ToD2DRect : Rect -> D2D1_RECT_F.
Variable FromD2DRect : D2D1_RECT_F -> Rect.
Variable dev : ICanvasDeviceInternal.

Lemma get_SourceRectangle_bitmapBrush (b : CanvasImageBrush) :
  is_closed b = false ->
  m_d2dImageBrush b = None ->
  get_SourceRectangle FromD2DRect out_valid b = (Normal (S_OK, Some None), b).
Proof.
  brush_fields b. unfold is_closed. simpl. intros Hopen ->.
  destruct device; [reflexivity | discriminate].
Qed.

Lemma get_SourceRectangle_set (b : CanvasImageBrush) (ib : ID2D1ImageBrush) :
  is_closed b = false ->
  m_d2dImageBrush b = Some ib ->
  m_isSourceRectSet b = true ->
  get_SourceRectangle FromD2DRect out_valid b
  = (Normal (S_OK, Some (Some (FromD2DRect (ImageBrush.GetSourceRectangle ib)))), b).
Proof.
  brush_fields b. unfold is_closed. simpl. intros Hopen -> ->.
  destruct device; [reflexivity | discriminate].
Qed.

(** C6, as amended.  On an open brush in the bitmap brush representation,
    [put_SourceRectangle] with a reference that yields a rectangle asks the
    device for an image brush on the bitmap of the bitmap brush, copies the
    style to it, releases the bitmap brush, sets the converted rectangle on the
    image brush and sets [m_isSourceRectSet]; it returns [S_OK] if the device
    creates the brush.  [get_SourceRectangle] then returns that rectangle
    converted to a [D2D1_RECT_F] and back. *)
Theorem put_SourceRectangle_on_bitmapBrush
        (b : CanvasImageBrush) (old : ID2D1BitmapBrush1)
        (value : IReference_Rect) (created : ID2D1ImageBrush) :
  is_closed b = false ->
  m_d2dBitmapBrush b = Some old ->
  m_d2dImageBrush b = None ->
  FAILED (get_Value_hr value) = false ->
  CreateImageBrush dev (upcast_bitmap (BitmapBrush.GetBitmap old)) = inr created ->
  let rect := get_Value_rect value in
  let b' :=
    set_m_isSourceRectSet true
      (set_m_resource (Some resource_imageBrush)
         (set_m_d2dBitmapBrush None
            (set_m_d2dImageBrush
               (Some (ImageBrush.SetSourceRectangle (ToD2DRect rect)
                        (copy_to_imageBrush old created))) b))) in
  put_SourceRectangle ToD2DRect dev (Some value) b = (Normal S_OK, b') /\
  representation b' = GeneralImageBrushRepresentation /\
  m_isSourceRectSet b' = true /\
  get_SourceRectangle FromD2DRect out_valid b'
  = (Normal (S_OK, Some (Some (FromD2DRect (ToD2DRect rect)))), b').
Proof.
  brush_fields b. unfold is_closed. simpl.
  intros Hopen -> -> Hvalue Hcreate.
  destruct device; [| discriminate].
  run_member. rewrite Hcreate. simpl. rewrite Hvalue. simpl.
  repeat split.
Qed.

(** What the downgrade leaves when the image is not a plain bitmap. *)
Lemma put_SourceRectangle_null_keeps_imageBrush
      (b : CanvasImageBrush) (ib : ID2D1ImageBrush) :
  is_closed b = false ->
  m_d2dBitmapBrush b = None ->
  m_d2dImageBrush b = Some ib ->
  plain_bitmap_or_absent (ImageBrush.GetImage ib) = false ->
  put_SourceRectangle ToD2DRect dev None b
  = (Normal S_OK,
     set_m_isSourceRectSet false
       (set_m_d2dImageBrush (Some (ImageBrush.SetSourceRectangle defaultRect ib)) b)).
Proof.
  brush_fields b. unfold is_closed. simpl. intros Hopen -> -> Himage.
  destruct device; [| discriminate].
  destruct ib as [[[bitmap | id] |] ? ? ? ? ? ?]; simpl in Himage; try discriminate.
  reflexivity.
Qed.

(** What the downgrade leaves when the image is a plain bitmap or absent. *)
Lemma put_SourceRectangle_null_downgrades
      (b : CanvasImageBrush) (ib : ID2D1ImageBrush) :
  is_closed b = false ->
  m_d2dBitmapBrush b = None ->
  m_d2dImageBrush b = Some ib ->
  plain_bitmap_or_absent (ImageBrush.GetImage ib) = true ->
  put_SourceRectangle ToD2DRect dev None b
  = match CreateBitmapBrush dev (bitmap_of_image (ImageBrush.GetImage ib)) with
    | inr created =>
        (Normal S_OK,
         set_m_resource (Some resource_bitmapBrush)
           (set_m_d2dImageBrush None
              (set_m_d2dBitmapBrush
                 (Some (copy_to_bitmapBrush
                          (ImageBrush.SetSourceRectangle defaultRect ib) created))
                 (set_m_isSourceRectSet false b))))
    | inl e =>
        (Normal (GetHr e),
         set_m_isSourceRectSet false
           (set_m_d2dImageBrush
              (Some (ImageBrush.SetSourceRectangle defaultRect ib)) b))
    end.
Proof.
  brush_fields b. unfold is_closed. simpl. intros Hopen -> -> Himage.
  destruct device; [| discriminate].
  destruct ib as [[[bitmap | id] |] ? ? ? ? ? ?]; simpl in Himage; try discriminate;
    run_member;
    match goal with |- context [CreateBitmapBrush dev ?x] =>
      destruct (CreateBitmapBrush dev x) end; reflexivity.
Qed.

(** C7. On an open brush in the general image brush representation,
    [put_SourceRectangle] with null resets the rectangle of the image brush to
    the default rectangle and clears [m_isSourceRectSet].  If the image of the
    image brush is not a plain bitmap the call returns [S_OK] and the brush
    keeps its image brush and its image.  If the image is a plain bitmap or
    absent and the device creates a bitmap brush on it, the call returns
    [S_OK] having switched to that bitmap brush.  So a call that returns
    [S_OK] leaves the bitmap brush representation exactly when the image was
    a plain bitmap or absent. *)
Theorem put_SourceRectangle_null_on_imageBrush
        (b : CanvasImageBrush) (ib : ID2D1ImageBrush) :
  is_closed b = false ->
  m_d2dBitmapBrush b = None ->
  m_d2dImageBrush b = Some ib ->
  let cleared := ImageBrush.SetSourceRectangle defaultRect ib in
  let r := put_SourceRectangle ToD2DRect dev None b in
  m_isSourceRectSet (snd r) = false /\
  (plain_bitmap_or_absent (ImageBrush.GetImage ib) = false ->
   r = (Normal S_OK,
        set_m_isSourceRectSet false (set_m_d2dImageBrush (Some cleared) b))) /\
  (forall created,
      plain_bitmap_or_absent (ImageBrush.GetImage ib) = true ->
      CreateBitmapBrush dev (bitmap_of_image (ImageBrush.GetImage ib)) = inr created ->
      r = (Normal S_OK,
           set_m_resource (Some resource_bitmapBrush)
             (set_m_d2dImageBrush None
                (set_m_d2dBitmapBrush (Some (copy_to_bitmapBrush cleared created))
                   (set_m_isSourceRectSet false b))))) /\
  (fst r = Normal S_OK ->
   (representation (snd r) = BitmapBrushRepresentation <->
    plain_bitmap_or_absent (ImageBrush.GetImage ib) = true) /\
   (representation (snd r) = GeneralImageBrushRepresentation <->
    plain_bitmap_or_absent (ImageBrush.GetImage ib) = false)).
Proof.
  intros Hopen Hbb Hib cleared r.
  destruct (plain_bitmap_or_absent (ImageBrush.GetImage ib)) eqn:Hplain.
  - pose proof (put_SourceRectangle_null_downgrades b ib Hopen Hbb Hib Hplain) as Hr.
    fold r in Hr.
    destruct (CreateBitmapBrush dev (bitmap_of_image (ImageBrush.GetImage ib)))
      as [e | created] eqn:Hcreate; rewrite Hr.
    + split; [reflexivity |]. split; [discriminate |].
      split; [intros ? _ ?; discriminate |].
      simpl. intros Hok. exfalso.
      inversion Hok.
    + split; [reflexivity |]. split; [discriminate |].
      split; [intros created' _ Hc; inversion Hc; reflexivity |].
      intros _. unfold representation. simpl.
      split; split; intros; try reflexivity; discriminate.
  - pose proof (put_SourceRectangle_null_keeps_imageBrush b ib Hopen Hbb Hib Hplain) as Hr.
    fold r in Hr. rewrite Hr.
    split; [reflexivity |]. split; [reflexivity |].
    split; [intros ? ?; discriminate |].
    intros _. unfold representation. simpl. rewrite Hbb.
    split; split; intros; try reflexivity; discriminate.
Qed.

End SourceRectangle.

(** The unit square on a bitmap brush from the factory, with the
    conversions in binary32 arithmetic. *)
Lemma put_SourceRectangle_on_bitmapBrush_witness :
  exists b',
    put_SourceRectangle Scenario.ToD2DRect Scenario.device
                        (Some (Nullable Scenario.unit_square)) Scenario.bitmap_brush
    = (Normal S_OK, b') /\
    representation b' = GeneralImageBrushRepresentation /\
    bound_image b' = Some (d2dBitmap 7%N) /\
    get_SourceRectangle Scenario.FromD2DRect out_valid b'
    = (Normal (S_OK, Some (Some (Scenario.FromD2DRect
                                   (Scenario.ToD2DRect Scenario.unit_square)))), b').
Proof.
  destruct (put_SourceRectangle_on_bitmapBrush
              Scenario.ToD2DRect Scenario.FromD2DRect Scenario.device
              Scenario.bitmap_brush _ (Nullable Scenario.unit_square) _
              eq_refl eq_refl eq_refl eq_refl eq_refl)
    as (Hput & Hrep & _ & Hget).
  eexists. split; [exact Hput |]. split; [exact Hrep |].
  split; [reflexivity |]. exact Hget.
Defined.

(** C6, as stated, fails: with the conversions in binary32 arithmetic, the
    rectangle at X = 2^24 of width 1 put on a bitmap brush comes back from
    [get_SourceRectangle] with width 0, as its right edge 2^24 + 1 is rounded
    to 2^24 on the way in. *)
Lemma get_SourceRectangle_rounded :
  fst (put_SourceRectangle Scenario.ToD2DRect Scenario.device
                           (Some (Nullable Scenario.far_rectangle)) Scenario.bitmap_brush)
  = Normal S_OK /\
  get_SourceRectangle Scenario.FromD2DRect out_valid
    (snd (put_SourceRectangle Scenario.ToD2DRect Scenario.device
                              (Some (Nullable Scenario.far_rectangle))
                              Scenario.bitmap_brush))
  = (Normal (S_OK,
             Some (Some (mkRect (rect_X Scenario.far_rectangle) FLOAT_zero
                                FLOAT_zero Scenario.one))),
     snd (put_SourceRectangle Scenario.ToD2DRect Scenario.device
                              (Some (Nullable Scenario.far_rectangle))
                              Scenario.bitmap_brush)) /\
  rect_Width Scenario.far_rectangle = Scenario.one /\
  mkRect (rect_X Scenario.far_rectangle) FLOAT_zero FLOAT_zero Scenario.one
  <> Scenario.far_rectangle.
Proof.
  split; [reflexivity |]. split; [vm_compute; reflexivity |].
  split; [reflexivity |]. intros H.
  apply (f_equal rect_Width) in H. discriminate.
Qed.

(** Clearing the rectangle of a cropped bitmap downgrades; clearing the
    rectangle of a cropped effect does not. *)
Lemma put_SourceRectangle_null_on_imageBrush_witness :
  (fst (put_SourceRectangle Scenario.ToD2DRect Scenario.device None
                            Scenario.cropped_bitmap_brush) = Normal S_OK /\
   representation (snd (put_SourceRectangle Scenario.ToD2DRect Scenario.device None
                                            Scenario.cropped_bitmap_brush))
   = BitmapBrushRepresentation) /\
  (fst (put_SourceRectangle Scenario.ToD2DRect Scenario.device None
                            Scenario.cropped_effect_brush) = Normal S_OK /\
   representation (snd (put_SourceRectangle Scenario.ToD2DRect Scenario.device None
                                            Scenario.cropped_effect_brush))
   = GeneralImageBrushRepresentation).
Proof.
  split.
  - destruct (put_SourceRectangle_null_on_imageBrush
                Scenario.ToD2DRect Scenario.device Scenario.cropped_bitmap_brush _
                eq_refl eq_refl eq_refl) as (_ & _ & Hdown & Hiff).
    rewrite (Hdown _ eq_refl eq_refl). split; reflexivity.
  - destruct (put_SourceRectangle_null_on_imageBrush
                Scenario.ToD2DRect Scenario.device Scenario.cropped_effect_brush _
                eq_refl eq_refl eq_refl) as (_ & Hkeep & _ & _).
    rewrite (Hkeep eq_refl). split; reflexivity.
Defined.

(** ** The invariant *)

Lemma well_formed_fields device resource bitmapBrush imageBrush isSourceRectSet effect :
  well_formed (mkBrush device resource bitmapBrush imageBrush isSourceRectSet effect) <->
  is_set device = true /\
  xorb (is_set bitmapBrush) (is_set imageBrush) = true /\
  (isSourceRectSet = true -> is_set imageBrush = true).
Proof.
  split.
  - intros [Hopen Hone Hrect]. unfold is_closed, exactly_one_populated in *. simpl in *.
    destruct device; [| discriminate]. auto.
  - intros (Hopen & Hone & Hrect). constructor; unfold is_closed, exactly_one_populated;
      simpl; auto. rewrite Hopen. reflexivity.
Qed.

(** A call on a well-formed brush returns an [HRESULT] (it dereferences no
    null pointer) and leaves a well-formed brush, whether it fails or not. *)
Lemma invoke_well_formed (lib : Library) (c : Call) (b : CanvasImageBrush) :
  well_formed b ->
  is_Close c = false ->
  (exists hr, fst (invoke lib c b) = Normal hr) /\
  well_formed (snd (invoke lib c b)).
Proof.
  intros Hwf Hc. destruct b as [device resource bitmapBrush imageBrush rectSet effect].
  apply well_formed_fields in Hwf. destruct Hwf as (Hopen & Hone & Hrect).
  destruct device; [| discriminate].
  destruct bitmapBrush, imageBrush; try discriminate;
    destruct c; try discriminate; run_member;
      repeat branch;
      (split; [eexists; reflexivity | solve_well_formed]).
  (* the bitmap brush is chosen only when no source rectangle is set *)
  intros ->. rewrite andb_false_r in *. discriminate.
Qed.

(** The constructor from an image dereferences no null pointer and, when it
    does not throw, leaves a well-formed brush. *)
Lemma CanvasImageBrush_of_image_well_formed
      (dev : ICanvasDeviceInternal) (device : ICanvasDevice) (image : option ICanvasImage) :
  match CanvasImageBrush_of_image dev device image with
  | (Normal _, b) => well_formed b
  | (Throw _, _) => True
  | (NullDereference, _) => False
  end.
Proof.
  unfold CanvasImageBrush_of_image. destruct image as [image |]; run_member;
    repeat branch; try exact I; try discriminate; solve_well_formed.
Qed.

Lemma CreateWithImage_well_formed
      (dev : ICanvasDeviceInternal) (resourceAllocator : option (HRESULT * ICanvasDevice))
      (image : option ICanvasImage) (canvasImageBrush : OutPointer)
      (hr : HRESULT) (b : CanvasImageBrush) :
  CreateWithImage dev resourceAllocator image canvasImageBrush = Normal (hr, Some b) ->
  well_formed b.
Proof.
  unfold CreateWithImage.
  destruct resourceAllocator as [[hr0 device] |]; [| discriminate].
  destruct canvasImageBrush; [discriminate |].
  destruct (FAILED hr0); [discriminate |].
  pose proof (CanvasImageBrush_of_image_well_formed dev device image) as Hctor.
  destruct (CanvasImageBrush_of_image dev device image) as [[? | ? |] newImageBrush];
    intros H; inversion H; subst; assumption.
Qed.

Lemma reachable_well_formed (b : CanvasImageBrush) :
  reachable b -> well_formed b.
Proof.
  induction 1 as [dev resourceAllocator image b Hcreate
                 | device bitmapBrush | device imageBrush
                 | lib c b Hreach IH Hc].
  - eapply CreateWithImage_well_formed; eassumption.
  - solve_well_formed.
  - solve_well_formed.
  - now apply invoke_well_formed.
Qed.

Lemma run_well_formed (calls : list Mutation) (b : CanvasImageBrush) :
  well_formed b -> well_formed (run calls b).
Proof.
  revert b. induction calls as [| m calls IH]; intros b Hwf; simpl.
  - assumption.
  - apply IH. destruct m as [lib image | lib value].
    + now apply (invoke_well_formed lib (call_put_Image image)).
    + now apply (invoke_well_formed lib (call_put_SourceRectangle value)).
Qed.

(** C1. A brush the factory has made, after any sequence of [put_Image] and
    [put_SourceRectangle] calls, each with any arguments and any answers of
    the device, failed or not, is open and has exactly one of its two native
    brushes populated; and a further such call returns an [HRESULT], as it
    dereferences no null pointer. *)
Theorem exactly_one_native_brush
        (dev : ICanvasDeviceInternal) (resourceAllocator : option (HRESULT * ICanvasDevice))
        (image : option ICanvasImage) (b0 : CanvasImageBrush) (calls : list Mutation) :
  CreateWithImage dev resourceAllocator image out_valid = Normal (S_OK, Some b0) ->
  let b := run calls b0 in
  exactly_one_populated b = true /\
  (representation b = BitmapBrushRepresentation \/
   representation b = GeneralImageBrushRepresentation) /\
  is_closed b = false /\
  forall m, exists hr, fst (mutate m b) = Normal hr.
Proof.
  intros Hcreate b.
  assert (Hwf : well_formed b).
  { apply run_well_formed. eapply CreateWithImage_well_formed; eassumption. }
  destruct Hwf as [Hopen Hone Hrect].
  repeat split; try assumption.
  - unfold exactly_one_populated in Hone. unfold representation.
    destruct (m_d2dBitmapBrush b), (m_d2dImageBrush b); try discriminate; auto.
  - intros m. assert (Hwf : well_formed b) by (constructor; assumption).
    destruct m as [lib image' | lib value].
    + now apply (invoke_well_formed lib (call_put_Image image')).
    + now apply (invoke_well_formed lib (call_put_SourceRectangle value)).
Qed.

(** The factory without an image, then an effect, a rectangle, a bitmap on
    a removed device, and no rectangle. *)
Lemma exactly_one_native_brush_witness :
  let calls :=
    [ setImage Scenario.library (Some Scenario.an_effect);
      setSourceRectangle Scenario.library (Some (Nullable Scenario.unit_square));
      setImage Scenario.library_lost (Some Scenario.a_bitmap);
      setSourceRectangle Scenario.library None ] in
  exactly_one_populated (run calls Scenario.empty_brush) = true /\
  is_closed (run calls Scenario.empty_brush) = false.
Proof.
  intros calls.
  destruct (exactly_one_native_brush Scenario.device (Some (S_OK, 1%N)) None
              Scenario.empty_brush calls eq_refl) as (Hone & _ & Hopen & _).
  split; assumption.
Defined.

(** C5. On every brush a client can hold before [Close]:
    [m_isSourceRectSet] implies the general image brush representation; and
    in the bitmap brush representation [m_isSourceRectSet] is false and
    [get_SourceRectangle] returns [S_OK] and a null reference (or
    [E_INVALIDARG] and nothing, for a null out pointer). *)
Theorem source_rectangle_only_on_imageBrush (b : CanvasImageBrush) :
  reachable b ->
  (m_isSourceRectSet b = true -> representation b = GeneralImageBrushRepresentation) /\
  (representation b = BitmapBrushRepresentation ->
   m_isSourceRectSet b = false /\
   forall FromD2DRect value,
     get_SourceRectangle FromD2DRect value b
     = (Normal match value with
               | out_valid => (S_OK, Some None)
               | out_nullptr => (E_INVALIDARG, None)
               end, b)).
Proof.
  intros Hreach. apply reachable_well_formed in Hreach.
  destruct b as [device resource bitmapBrush imageBrush rectSet effect].
  apply well_formed_fields in Hreach. destruct Hreach as (Hopen & Hone & Hrect).
  destruct device; [| discriminate].
  unfold representation. simpl.
  destruct bitmapBrush, imageBrush; try discriminate; simpl in *.
  - split.
    + intros Hset. apply Hrect in Hset. discriminate.
    + intros _. split.
      * destruct rectSet; [exfalso; apply diff_false_true; auto | reflexivity].
      * intros FromD2DRect value. destruct value; reflexivity.
  - split; [reflexivity | discriminate].
Qed.

(** A bitmap brush from the factory that was given a rectangle and lost it
    again is reachable, and in the bitmap brush representation. *)
Lemma source_rectangle_only_on_imageBrush_witness :
  let b := snd (invoke Scenario.library (call_put_SourceRectangle None)
                  (snd (invoke Scenario.library
                          (call_put_SourceRectangle (Some (Nullable Scenario.unit_square)))
                          Scenario.bitmap_brush))) in
  representation b = BitmapBrushRepresentation /\
  m_isSourceRectSet b = false /\
  get_SourceRectangle Scenario.FromD2DRect out_valid b = (Normal (S_OK, Some None), b).
Proof.
  intros b.
  assert (Hreach : reachable b).
  { apply reachable_invoke; [| reflexivity].
    apply reachable_invoke; [| reflexivity].
    apply (reachable_factory Scenario.device (Some (S_OK, 1%N)) (Some Scenario.a_bitmap)).
    reflexivity. }
  destruct (source_rectangle_only_on_imageBrush b Hreach) as [_ Hbitmap].
  destruct (Hbitmap eq_refl) as [Hflag Hget].
  split; [reflexivity |]. split; [exact Hflag |].
  exact (Hget Scenario.FromD2DRect out_valid).
Defined.

(** ** Failed calls *)

Lemma after_failed_call_frame (c : Call) (b : CanvasImageBrush) :
  representation (after_failed_call c b) = representation b /\
  bound_image (after_failed_call c b) = bound_image b /\
  style_of (after_failed_call c b) = style_of b /\
  m_effectNeedingDpiFixup (after_failed_call c b) = m_effectNeedingDpiFixup b.
Proof.
  unfold after_failed_call, representation, bound_image, style_of.
  destruct b as [device resource bitmapBrush imageBrush rectSet effect].
  destruct (is_closed _); [repeat split |].
  destruct c; simpl; try (repeat split; fail).
  destruct value; simpl; [repeat split |].
  destruct bitmapBrush, imageBrush; repeat split.
Qed.

Lemma failed_call_up_to_fixup
      (lib : Library) (c : Call) (b b' : CanvasImageBrush) (hr : HRESULT) :
  invoke lib c b = (Normal hr, b') ->
  FAILED hr = true ->
  unreadable_rectangle_on_bitmapBrush c b = false ->
  effect_without_internal c = false ->
  forget_fixup b' = forget_fixup (after_failed_call c b) /\
  (is_put_Image c = false -> b' = after_failed_call c b).
Proof.
  revert b'. destruct b as [device resource bitmapBrush imageBrush rectSet effect].
  unfold after_failed_call, unreadable_rectangle_on_bitmapBrush, effect_without_internal,
    forget_fixup, is_closed.
  simpl.
  destruct device, c; run_member; unfold FAILED in *;
    repeat branch;
    intros b' Hinvoke Hfailed Hslip Heffect;
    inversion Hinvoke; subst;
    try discriminate; try (split; [reflexivity | intros; first [reflexivity | discriminate]]);
    try (rewrite ?andb_true_r, ?andb_false_r in *; simpl in *; congruence).
Qed.

(** C4, as amended.  When a call of a public member function returns a
    failed [HRESULT], the representation, the bound image and the style are
    as before the call, and the brush is as before the call up to its pending
    DPI fixup, with one exception: a failed [put_SourceRectangle] of null on an
    open general image brush has reset the rectangle of the image brush and
    [m_isSourceRectSet] before its downgrade failed.  After a failed call
    other than [put_Image] the pending DPI fixup is as before too.  The
    statement leaves aside the pending DPI fixup after a failed [put_Image],
    [put_Image] of an effect whose query for [ICanvasImageInternal] fails, and
    [put_SourceRectangle] on a bitmap brush with a reference whose [get_Value]
    fails. *)
Theorem failed_call_leaves_brush
        (lib : Library) (c : Call) (b b' : CanvasImageBrush) (hr : HRESULT) :
  invoke lib c b = (Normal hr, b') ->
  FAILED hr = true ->
  unreadable_rectangle_on_bitmapBrush c b = false ->
  effect_without_internal c = false ->
  forget_fixup b' = forget_fixup (after_failed_call c b) /\
  (is_put_Image c = false -> b' = after_failed_call c b) /\
  representation b' = representation b /\
  bound_image b' = bound_image b /\
  style_of b' = style_of b.
Proof.
  intros Hinvoke Hfailed Hslip Heffect.
  destruct (failed_call_up_to_fixup lib c b b' hr Hinvoke Hfailed Hslip Heffect)
    as [Hforget Hexact].
  split; [exact Hforget |]. split; [exact Hexact |].
  destruct (after_failed_call_frame c b) as (Hrep & Himage & Hstyle & _).
  rewrite <- Hrep, <- Himage, <- Hstyle.
  assert (Hframe : forall x,
             representation (forget_fixup x) = representation x /\
             bound_image (forget_fixup x) = bound_image x /\
             style_of (forget_fixup x) = style_of x)
    by (intros x; repeat split).
  destruct (Hframe b') as (R1 & I1 & S1).
  destruct (Hframe (after_failed_call c b)) as (R2 & I2 & S2).
  rewrite <- R1, <- I1, <- S1, <- R2, <- I2, <- S2, Hforget. repeat split.
Qed.

(** A bitmap assigned to a cropped effect brush while the device is removed:
    the call fails and the image brush still holds the effect, its rectangle
    and its style. *)
Lemma failed_call_leaves_brush_witness :
  exists b',
    invoke Scenario.library_lost (call_put_Image (Some Scenario.a_bitmap))
           Scenario.cropped_effect_brush
    = (Normal Scenario.DXGI_ERROR_DEVICE_REMOVED, b') /\
    forget_fixup b' = forget_fixup Scenario.cropped_effect_brush /\
    representation b' = representation Scenario.cropped_effect_brush /\
    bound_image b' = bound_image Scenario.cropped_effect_brush.
Proof.
  eexists. split; [reflexivity |].
  destruct (failed_call_leaves_brush
              Scenario.library_lost (call_put_Image (Some Scenario.a_bitmap))
              Scenario.cropped_effect_brush _ Scenario.DXGI_ERROR_DEVICE_REMOVED
              eq_refl eq_refl eq_refl eq_refl) as (Hforget & _ & Hrep & Himage & _).
  split; [exact Hforget |]. split; [exact Hrep | exact Himage].
Defined.

(** C4, as stated, fails: on a general image brush bound to a plain bitmap,
    [put_SourceRectangle] of null with a device that cannot create the bitmap
    brush returns a failed [HRESULT], and the brush is not as it was: the
    source rectangle that was set is gone and the flag is clear, as the
    downgrade that failed asserts at its entry. *)
Lemma put_SourceRectangle_null_failed_downgrade :
  fst (put_SourceRectangle Scenario.ToD2DRect Scenario.lost_device None
                           Scenario.cropped_bitmap_brush)
  = Normal Scenario.DXGI_ERROR_DEVICE_REMOVED /\
  FAILED Scenario.DXGI_ERROR_DEVICE_REMOVED = true /\
  m_isSourceRectSet Scenario.cropped_bitmap_brush = true /\
  native_rectangle Scenario.cropped_bitmap_brush
  = Some (Scenario.ToD2DRect Scenario.unit_square) /\
  m_isSourceRectSet
    (snd (put_SourceRectangle Scenario.ToD2DRect Scenario.lost_device None
                              Scenario.cropped_bitmap_brush)) = false /\
  native_rectangle
    (snd (put_SourceRectangle Scenario.ToD2DRect Scenario.lost_device None
                              Scenario.cropped_bitmap_brush)) = Some defaultRect /\
  snd (put_SourceRectangle Scenario.ToD2DRect Scenario.lost_device None
                           Scenario.cropped_bitmap_brush)
  <> Scenario.cropped_bitmap_brush.
Proof.
  repeat split. intros H.
  apply (f_equal m_isSourceRectSet) in H. discriminate.
Qed.

(** The three cases C4 as amended leaves aside.  A failed [put_Image]
    leaves the effect it still draws without its DPI fixup. *)
Lemma put_Image_failed_clears_dpi_fixup :
  fst (put_Image Scenario.lost_device (Some Scenario.a_bitmap)
                 Scenario.cropped_effect_brush)
  = Normal Scenario.DXGI_ERROR_DEVICE_REMOVED /\
  FAILED Scenario.DXGI_ERROR_DEVICE_REMOVED = true /\
  m_effectNeedingDpiFixup Scenario.cropped_effect_brush = Some 9%N /\
  m_effectNeedingDpiFixup
    (snd (put_Image Scenario.lost_device (Some Scenario.a_bitmap)
                    Scenario.cropped_effect_brush)) = None /\
  bound_image
    (snd (put_Image Scenario.lost_device (Some Scenario.a_bitmap)
                    Scenario.cropped_effect_brush)) = Some (d2dOtherImage 9) /\
  snd (put_Image Scenario.lost_device (Some Scenario.a_bitmap)
                 Scenario.cropped_effect_brush)
  <> Scenario.cropped_effect_brush.
Proof.
  repeat split. intros H.
  apply (f_equal m_effectNeedingDpiFixup) in H. discriminate.
Qed.

(** On a bitmap brush, [put_Image] of an effect whose query for
    [ICanvasImageInternal] fails returns the failure after the switch to the
    image brush, and records no DPI fixup. *)
Lemma put_Image_effect_without_internal :
  fst (put_Image Scenario.device (Some Scenario.foreign_effect) Scenario.bitmap_brush)
  = Normal E_NOINTERFACE /\
  representation Scenario.bitmap_brush = BitmapBrushRepresentation /\
  representation
    (snd (put_Image Scenario.device (Some Scenario.foreign_effect) Scenario.bitmap_brush))
  = GeneralImageBrushRepresentation /\
  bound_image
    (snd (put_Image Scenario.device (Some Scenario.foreign_effect) Scenario.bitmap_brush))
  = Some (d2dOtherImage 13) /\
  m_effectNeedingDpiFixup
    (snd (put_Image Scenario.device (Some Scenario.foreign_effect) Scenario.bitmap_brush))
  = None.
Proof. repeat split. Qed.

(** On a bitmap brush, [put_SourceRectangle] with a reference whose
    [get_Value] fails returns the failure after the switch to the image
    brush. *)
Lemma put_SourceRectangle_unreadable_on_bitmapBrush :
  fst (put_SourceRectangle Scenario.ToD2DRect Scenario.device
                           (Some Scenario.unreadable) Scenario.bitmap_brush)
  = Normal E_INVALIDARG /\
  representation Scenario.bitmap_brush = BitmapBrushRepresentation /\
  representation
    (snd (put_SourceRectangle Scenario.ToD2DRect Scenario.device
                              (Some Scenario.unreadable) Scenario.bitmap_brush))
  = GeneralImageBrushRepresentation /\
  m_isSourceRectSet
    (snd (put_SourceRectangle Scenario.ToD2DRect Scenario.device
                              (Some Scenario.unreadable) Scenario.bitmap_brush))
  = false.
Proof. repeat split. Qed.


(** * Further properties of the member functions *)

(** ** What each call leaves alone *)

(** X1. The getters, [GetD2DBrush] and [GetResource] never write to the
    brush: whatever its state and whatever they return or throw, the brush
    after the call is the brush before it. *)
Theorem observers_leave_brush (lib : Library) (c : Call) (b : CanvasImageBrush) :
  is_observer c = true ->
  snd (invoke lib c b) = b.
Proof.
  intros Hc. destruct b as [device resource bitmapBrush imageBrush rectSet effect].
  destruct c; try discriminate; run_member; repeat branch; reflexivity.
Qed.

Lemma observers_leave_brush_witness :
  snd (invoke Scenario.library (call_GetD2DBrush (Some 3%N) GetBrushFlag.None)
              Scenario.effect_brush)
  = Scenario.effect_brush.
Proof.
  exact (observers_leave_brush Scenario.library
           (call_GetD2DBrush (Some 3%N) GetBrushFlag.None) Scenario.effect_brush eq_refl).
Defined.

(** X2. [m_isSourceRectSet] has one writer and [m_effectNeedingDpiFixup] has
    one writer: in every state of the brush, a call other than
    [put_SourceRectangle] leaves the flag as it is, [Close] and [put_Image]
    included, and a call other than [put_Image] leaves the pending DPI fixup as
    it is, [Close] and the switches of [put_SourceRectangle] included. *)
Theorem flag_and_fixup_writers (lib : Library) (c : Call) (b : CanvasImageBrush) :
  (is_put_SourceRectangle c = false ->
   m_isSourceRectSet (snd (invoke lib c b)) = m_isSourceRectSet b) /\
  (is_put_Image c = false ->
   m_effectNeedingDpiFixup (snd (invoke lib c b)) = m_effectNeedingDpiFixup b).
Proof.
  destruct b as [device resource bitmapBrush imageBrush rectSet effect].
  split; intros Hc; destruct c; try discriminate; run_member;
    repeat branch; reflexivity.
Qed.

Lemma flag_and_fixup_writers_witness :
  m_isSourceRectSet
    (snd (invoke Scenario.library_lost (call_put_Image (Some Scenario.a_bitmap))
                 Scenario.cropped_effect_brush)) = true /\
  m_effectNeedingDpiFixup
    (snd (invoke Scenario.library (call_put_SourceRectangle None)
                 Scenario.cropped_effect_brush)) = Some 9%N.
Proof.
  split.
  - exact (proj1 (flag_and_fixup_writers Scenario.library_lost
                    (call_put_Image (Some Scenario.a_bitmap))
                    Scenario.cropped_effect_brush) eq_refl).
  - exact (proj2 (flag_and_fixup_writers Scenario.library
                    (call_put_SourceRectangle None)
                    Scenario.cropped_effect_brush) eq_refl).
Defined.

(** X3. Only [put_ExtendX], [put_ExtendY] and [put_Interpolation] change the
    style.  On a well-formed brush every other call before [Close], whether it
    rebinds in place, switches the native brush in either direction or fails
    half way, leaves the extend modes, the interpolation mode, the opacity and
    the transform of the populated native brush as they were. *)
Theorem only_style_setters_change_style
        (lib : Library) (c : Call) (b : CanvasImageBrush) :
  well_formed b ->
  is_style_setter c = false ->
  is_Close c = false ->
  style_of (snd (invoke lib c b)) = style_of b.
Proof.
  intros Hwf Hstyle Hc.
  destruct b as [device resource bitmapBrush imageBrush rectSet effect].
  apply well_formed_fields in Hwf. destruct Hwf as (Hopen & Hone & Hrect).
  destruct device; [| discriminate].
  destruct bitmapBrush, imageBrush; try discriminate;
    destruct c; try discriminate; run_member; repeat branch; reflexivity.
Qed.

Lemma only_style_setters_change_style_witness :
  style_of (snd (invoke Scenario.library (call_put_Image (Some Scenario.an_effect))
                        Scenario.bitmap_brush))
  = style_of Scenario.bitmap_brush.
Proof.
  refine (only_style_setters_change_style Scenario.library
            (call_put_Image (Some Scenario.an_effect)) Scenario.bitmap_brush
            _ eq_refl eq_refl).
  constructor; [reflexivity | reflexivity | discriminate].
Defined.

(** ** No call through the ABI dereferences a null pointer *)

Lemma obtainable_well_formed_or_closed (b : CanvasImageBrush) :
  obtainable b -> well_formed b \/ is_closed b = true.
Proof.
  induction 1 as [b Hreach | lib c b Hobt IH].
  - left. now apply reachable_well_formed.
  - destruct IH as [Hwf | Hclosed].
    + destruct c; try (left; now apply invoke_well_formed).
      right. reflexivity.
    + right. destruct (is_Close c) eqn:Hc.
      * destruct c; try discriminate. reflexivity.
      * rewrite (invoke_closed lib c b Hclosed Hc). exact Hclosed.
Qed.

(** X4. On every brush a client can hold, open or closed, after any calls
    at all, every call of a public member function through the ABI returns an
    [HRESULT]: none of them reaches a dereference of a null [ComPtr]. *)
Theorem invoke_never_dereferences_null
        (lib : Library) (c : Call) (b : CanvasImageBrush) :
  obtainable b ->
  exists hr, fst (invoke lib c b) = Normal hr.
Proof.
  intros Hobt. destruct (obtainable_well_formed_or_closed b Hobt) as [Hwf | Hclosed].
  - destruct (is_Close c) eqn:Hc.
    + destruct c; try discriminate. exists S_OK. reflexivity.
    + now apply invoke_well_formed.
  - destruct (is_Close c) eqn:Hc.
    + destruct c; try discriminate. exists S_OK. reflexivity.
    + rewrite (invoke_closed lib c b Hclosed Hc). eexists. reflexivity.
Qed.

Lemma invoke_never_dereferences_null_witness :
  exists hr,
    fst (invoke Scenario.library (call_put_SourceRectangle None)
                (snd (invoke Scenario.library call_Close Scenario.effect_brush)))
    = Normal hr.
Proof.
  apply invoke_never_dereferences_null.
  apply obtainable_invoke. apply obtainable_reachable.
  apply (reachable_factory Scenario.device (Some (S_OK, 1%N)) (Some Scenario.an_effect)).
  reflexivity.
Defined.

(** ** The factory *)

(** X5. [CreateWithImage] returns [E_INVALIDARG] and no brush for a null
    resource creator or a null out pointer, and the failure of [get_Device] and
    no brush when that fails.  Whatever the arguments and the device, it
    dereferences no null pointer, it delivers a brush exactly when it returns
    [S_OK], it returns a failed [HRESULT] exactly when it delivers none, and a
    brush it delivers is well-formed. *)
Theorem CreateWithImage_outcome
        (dev : ICanvasDeviceInternal) (resourceAllocator : option (HRESULT * ICanvasDevice))
        (image : option ICanvasImage) (canvasImageBrush : OutPointer) :
  (resourceAllocator = None \/ canvasImageBrush = out_nullptr ->
   CreateWithImage dev resourceAllocator image canvasImageBrush
   = Normal (E_INVALIDARG, None)) /\
  (forall hr device,
      resourceAllocator = Some (hr, device) -> canvasImageBrush = out_valid ->
      FAILED hr = true ->
      CreateWithImage dev resourceAllocator image canvasImageBrush = Normal (hr, None)) /\
  exists hr delivered,
    CreateWithImage dev resourceAllocator image canvasImageBrush = Normal (hr, delivered) /\
    (is_set delivered = true <-> hr = S_OK) /\
    (is_set delivered = false <-> FAILED hr = true) /\
    (forall b, delivered = Some b -> well_formed b).
Proof.
  split; [| split].
  - intros [-> | ->]; [reflexivity |]. destruct resourceAllocator as [[? ?] |]; reflexivity.
  - intros hr device -> -> Hfailed. unfold CreateWithImage. rewrite Hfailed. reflexivity.
  - unfold CreateWithImage.
    destruct resourceAllocator as [[hr0 device] |];
      [| exists E_INVALIDARG, None; repeat split; intros; discriminate].
    destruct canvasImageBrush;
      [exists E_INVALIDARG, None; repeat split; intros; discriminate |].
    destruct (FAILED hr0) eqn:Hfailed.
    + exists hr0, None.
      repeat split; intros;
        first [discriminate | assumption | reflexivity | (subst hr0; discriminate)].
    + pose proof (CanvasImageBrush_of_image_well_formed dev device image) as Hctor.
      destruct (CanvasImageBrush_of_image dev device image) as [[? | e |] newImageBrush].
      * exists S_OK, (Some newImageBrush).
        split; [reflexivity |]. split; [split; reflexivity |].
        split; [split; discriminate |].
        intros b Hb. inversion Hb; subst. exact Hctor.
      * exists (GetHr e), None. repeat split; intros; discriminate.
      * contradiction.
Qed.

(** X6. [Create], and [CreateWithImage] without an image, ask the device for
    a bitmap brush on no bitmap: when the device creates it the factory returns
    [S_OK] and a brush holding exactly that bitmap brush, with no source
    rectangle and no pending DPI fixup; when the device throws, the factory
    returns the [HRESULT] of the exception and no brush. *)
Theorem Create_makes_empty_bitmapBrush
        (dev : ICanvasDeviceInternal) (hr : HRESULT) (device : ICanvasDevice) :
  FAILED hr = false ->
  Create dev (Some (hr, device)) out_valid
  = match CreateBitmapBrush dev None with
    | inr created =>
        Normal (S_OK,
                Some (mkBrush (Some device) (Some resource_bitmapBrush)
                              (Some created) None false None))
    | inl e => Normal (GetHr e, None)
    end.
Proof.
  intros Hfailed. unfold Create, CreateWithImage. rewrite Hfailed.
  unfold CanvasImageBrush_of_image. simpl. run_member.
  destruct (CreateBitmapBrush dev None); reflexivity.
Qed.

Lemma Create_makes_empty_bitmapBrush_witness :
  Create Scenario.device (Some (S_OK, 1%N)) out_valid
  = Normal (S_OK, Some Scenario.empty_brush) /\
  Create Scenario.lost_device (Some (S_OK, 1%N)) out_valid
  = Normal (Scenario.DXGI_ERROR_DEVICE_REMOVED, None).
Proof.
  split.
  - exact (Create_makes_empty_bitmapBrush Scenario.device S_OK 1%N eq_refl).
  - exact (Create_makes_empty_bitmapBrush Scenario.lost_device S_OK 1%N eq_refl).
Defined.

(** ** Assigning an image *)

Section AssignImage.

Variable dev : ICanvasDeviceInternal.

(** X7. On an open brush that holds a bitmap brush and has no source
    rectangle, [put_Image] of a bitmap works on the bitmap brush in place and
    asks the device nothing, so its outcome is the same whatever the device
    would answer.  If the bitmap gives its [ICanvasBitmapInternal] the call
    returns [S_OK], and only the bitmap of the bitmap brush and the pending DPI
    fixup, which is cleared even if the image is an effect as well, have
    changed.  If the query for that interface fails, the call returns the
    [HRESULT] of the query and only the pending DPI fixup has changed. *)
Theorem put_Image_bitmap_in_place
        (b : CanvasImageBrush) (bb : ID2D1BitmapBrush1)
        (image : ICanvasImage) (bitmap : ID2D1Bitmap1) :
  is_closed b = false ->
  m_d2dBitmapBrush b = Some bb ->
  m_isSourceRectSet b = false ->
  MaybeAs_ICanvasBitmap image = Some bitmap ->
  put_Image dev (Some image) b
  = if FAILED (As_ICanvasBitmapInternal image)
    then (Normal (As_ICanvasBitmapInternal image), set_m_effectNeedingDpiFixup None b)
    else (Normal S_OK,
          set_m_d2dBitmapBrush (Some (BitmapBrush.SetBitmap (Some bitmap) bb))
            (set_m_effectNeedingDpiFixup None b)).
Proof.
  intros Hopen Hbb Hrect Hbitmap. rewrite (put_Image_open dev b _ Hopen).
  brush_fields b. subst. run_member. rewrite Hbitmap. simpl.
  destruct (FAILED (As_ICanvasBitmapInternal image)) eqn:Hquery; simpl;
    [rewrite GetHr_of_failed by exact Hquery |]; reflexivity.
Qed.

(** X8. While a source rectangle is set, [put_Image] of any image, a bitmap
    included, goes through the image brush in place and creates no brush.  If
    the device throws on the image, the call fails with that [HRESULT] and
    only the pending DPI fixup has changed.  If the device resolves the image,
    the image brush is bound to the resolved image and keeps its source
    rectangle and style; then, when the image is an effect, the call queries
    it for [ICanvasImageInternal]: it returns [S_OK] with the effect as the
    pending DPI fixup, or, the image brush already rebound, the failure of the
    query with no pending DPI fixup.  When the image is no effect it returns
    [S_OK] with no pending DPI fixup. *)
Theorem put_Image_with_source_rectangle
        (b : CanvasImageBrush) (ib : ID2D1ImageBrush) (image : ICanvasImage) :
  is_closed b = false ->
  m_d2dImageBrush b = Some ib ->
  m_isSourceRectSet b = true ->
  put_Image dev (Some image) b
  = match GetD2DImage dev image with
    | inr d2dImage =>
        (Normal (effect_query image),
         set_m_effectNeedingDpiFixup (recorded_effect image)
           (set_m_d2dImageBrush (Some (ImageBrush.SetImage (Some d2dImage) ib)) b))
    | inl e => (Normal (GetHr e), set_m_effectNeedingDpiFixup None b)
    end.
Proof.
  intros Hopen Hib Hrect. rewrite (put_Image_open dev b _ Hopen).
  brush_fields b. subst. unfold is_closed in Hopen. simpl in Hopen.
  destruct device; [| discriminate].
  unfold effect_query, recorded_effect.
  run_member. rewrite andb_false_r.
  destruct (GetD2DImage dev image); simpl; [reflexivity |].
  destruct (MaybeAs_IGraphicsEffect image); simpl;
    destruct (FAILED (As_ICanvasImageInternal image)) eqn:Hquery; simpl;
    rewrite ?GetHr_of_failed by exact Hquery; reflexivity.
Qed.

(** X9. Assignment and read-back of the image.  With a device whose new
    brushes are bound to what they were created on, after [put_Image] of a
    non-null image has returned [S_OK] on a well-formed brush, [GetD2DImage]
    returns the native bitmap of the image when the image was a bitmap and no
    source rectangle was set, and otherwise the image the device resolved. *)
Theorem put_Image_then_GetD2DImage
        (b b' : CanvasImageBrush) (image : ICanvasImage) :
  well_formed b ->
  device_binds dev ->
  put_Image dev (Some image) b = (Normal S_OK, b') ->
  exists d2dImage,
    GetD2DImage_of_brush b' = (Normal (Some d2dImage), b') /\
    bound_image b' = Some d2dImage /\
    (uses_bitmapBrush image b = true ->
     option_map d2dBitmap (MaybeAs_ICanvasBitmap image) = Some d2dImage /\
     representation b' = BitmapBrushRepresentation) /\
    (uses_bitmapBrush image b = false ->
     GetD2DImage dev image = inr d2dImage /\
     representation b' = GeneralImageBrushRepresentation).
Proof.
  intros Hwf [Hbind_image Hbind_bitmap] Hput.
  destruct b as [device resource bitmapBrush imageBrush rectSet effect].
  apply well_formed_fields in Hwf. destruct Hwf as (Hopen & Hone & Hrect).
  destruct device; [| discriminate].
  unfold uses_bitmapBrush. simpl.
  destruct bitmapBrush, imageBrush; try discriminate;
    destruct (MaybeAs_ICanvasBitmap image) as [bitmap |] eqn:Hbitmap;
    destruct rectSet; try (specialize (Hrect eq_refl); discriminate);
    unfold put_Image, SetImage, SwitchToBitmapBrush, SwitchToImageBrush in Hput;
    unfold_monad; simpl in Hput; rewrite ?Hbitmap in Hput; simpl in Hput;
    repeat branch_in Hput; inversion Hput; subst; clear Hput;
    repeat match goal with
           | H : CreateImageBrush dev _ = inr ?c |- _ =>
               apply Hbind_image in H; destruct c; simpl in H; subst
           | H : CreateBitmapBrush dev _ = inr ?c |- _ =>
               apply Hbind_bitmap in H; destruct c; simpl in H; subst
           end;
    eexists; (split; [reflexivity |]); (split; [reflexivity |]);
    split; intros; try discriminate; split; first [reflexivity | assumption].
Qed.

End AssignImage.

Lemma CreateWithImage_outcome_witness :
  CreateWithImage Scenario.device None (Some Scenario.a_bitmap) out_valid
  = Normal (E_INVALIDARG, None) /\
  CreateWithImage Scenario.device (Some (RO_E_CLOSED, 1%N)) (Some Scenario.a_bitmap) out_valid
  = Normal (RO_E_CLOSED, None).
Proof.
  destruct (CreateWithImage_outcome Scenario.device None
              (Some Scenario.a_bitmap) out_valid) as (Hnull & _ & _).
  destruct (CreateWithImage_outcome Scenario.device (Some (RO_E_CLOSED, 1%N))
              (Some Scenario.a_bitmap) out_valid) as (_ & Hdevice & _).
  split.
  - exact (Hnull (or_introl eq_refl)).
  - exact (Hdevice RO_E_CLOSED 1%N eq_refl eq_refl eq_refl).
Defined.

(** A second bitmap on a bitmap brush, with the device removed; and a
    bitmap of a foreign class. *)
Lemma put_Image_bitmap_in_place_witness :
  (fst (put_Image Scenario.lost_device (Some (mkCanvasImage 8 (Some 8%N) None))
                  Scenario.bitmap_brush) = Normal S_OK /\
   bound_image (snd (put_Image Scenario.lost_device
                               (Some (mkCanvasImage 8 (Some 8%N) None))
                               Scenario.bitmap_brush))
   = Some (d2dBitmap 8%N)) /\
  put_Image Scenario.device (Some Scenario.foreign_bitmap) Scenario.bitmap_brush
  = (Normal E_NOINTERFACE, Scenario.bitmap_brush).
Proof.
  split.
  - rewrite (put_Image_bitmap_in_place Scenario.lost_device Scenario.bitmap_brush _
               (mkCanvasImage 8 (Some 8%N) None) 8%N eq_refl eq_refl eq_refl eq_refl).
    split; reflexivity.
  - exact (put_Image_bitmap_in_place Scenario.device Scenario.bitmap_brush _
             Scenario.foreign_bitmap 14%N eq_refl eq_refl eq_refl eq_refl).
Defined.

(** A bitmap on a cropped effect brush stays in the image brush; an effect
    of a foreign class is bound to it before the call fails. *)
Lemma put_Image_with_source_rectangle_witness :
  (fst (put_Image Scenario.device (Some Scenario.a_bitmap) Scenario.cropped_effect_brush)
   = Normal S_OK /\
   representation
     (snd (put_Image Scenario.device (Some Scenario.a_bitmap)
                     Scenario.cropped_effect_brush))
   = GeneralImageBrushRepresentation /\
   native_rectangle
     (snd (put_Image Scenario.device (Some Scenario.a_bitmap)
                     Scenario.cropped_effect_brush))
   = native_rectangle Scenario.cropped_effect_brush) /\
  (fst (put_Image Scenario.device (Some Scenario.foreign_effect)
                  Scenario.cropped_effect_brush) = Normal E_NOINTERFACE /\
   bound_image
     (snd (put_Image Scenario.device (Some Scenario.foreign_effect)
                     Scenario.cropped_effect_brush)) = Some (d2dOtherImage 13) /\
   m_effectNeedingDpiFixup
     (snd (put_Image Scenario.device (Some Scenario.foreign_effect)
                     Scenario.cropped_effect_brush)) = None).
Proof.
  split.
  - rewrite (put_Image_with_source_rectangle Scenario.device
               Scenario.cropped_effect_brush _ Scenario.a_bitmap eq_refl eq_refl eq_refl).
    repeat split.
  - rewrite (put_Image_with_source_rectangle Scenario.device
               Scenario.cropped_effect_brush _ Scenario.foreign_effect
               eq_refl eq_refl eq_refl).
    repeat split.
Defined.

Lemma Scenario_device_binds : device_binds Scenario.device.
Proof.
  split; intros x created H; inversion H; reflexivity.
Defined.

Lemma put_Image_then_GetD2DImage_witness :
  exists b',
    put_Image Scenario.device (Some Scenario.an_effect) Scenario.bitmap_brush
    = (Normal S_OK, b') /\
    GetD2DImage_of_brush b' = (Normal (Some (d2dOtherImage 9)), b').
Proof.
  eexists. split; [reflexivity |].
  assert (Hwf : well_formed Scenario.bitmap_brush)
    by (constructor; [reflexivity | reflexivity | discriminate]).
  destruct (put_Image_then_GetD2DImage Scenario.device Scenario.bitmap_brush _
              Scenario.an_effect Hwf Scenario_device_binds eq_refl)
    as (d2dImage & Hget & _ & _ & Hgeneral).
  destruct (Hgeneral eq_refl) as [Hresolved _].
  inversion Hresolved. subst d2dImage. exact Hget.
Defined.

(** ** The switches, again *)

(** X10. A switch is all or nothing.  On an open brush [SwitchToImageBrush]
    and [SwitchToBitmapBrush] ask the device for the new native brush before
    they write anything: if the device throws, the exception leaves the switch
    and the brush is exactly as it was; if the device creates the brush, the
    switch returns without throwing and the new brush is the populated one. *)
Theorem switch_all_or_nothing
        (dev : ICanvasDeviceInternal) (b : CanvasImageBrush)
        (image : option ID2D1Image) (bitmap : option ID2D1Bitmap1) :
  is_closed b = false ->
  (forall e, CreateImageBrush dev image = inl e ->
             SwitchToImageBrush dev image b = (Throw e, b)) /\
  (forall e, CreateBitmapBrush dev bitmap = inl e ->
             SwitchToBitmapBrush dev bitmap b = (Throw e, b)) /\
  (forall created, CreateImageBrush dev image = inr created ->
     fst (SwitchToImageBrush dev image b) = Normal tt /\
     is_set (m_d2dImageBrush (snd (SwitchToImageBrush dev image b))) = true /\
     m_d2dBitmapBrush (snd (SwitchToImageBrush dev image b)) = None /\
     m_resource (snd (SwitchToImageBrush dev image b)) = Some resource_imageBrush) /\
  (forall created, CreateBitmapBrush dev bitmap = inr created ->
     fst (SwitchToBitmapBrush dev bitmap b) = Normal tt /\
     is_set (m_d2dBitmapBrush (snd (SwitchToBitmapBrush dev bitmap b))) = true /\
     m_d2dImageBrush (snd (SwitchToBitmapBrush dev bitmap b)) = None /\
     m_resource (snd (SwitchToBitmapBrush dev bitmap b)) = Some resource_bitmapBrush).
Proof.
  intros Hopen. split; [| split; [| split]].
  - intros e He. now apply SwitchToImageBrush_throws.
  - intros e He. now apply SwitchToBitmapBrush_throws.
  - intros created Hcreate. brush_fields b. unfold is_closed in Hopen. simpl in Hopen.
    destruct device; [| discriminate].
    run_member. rewrite Hcreate. simpl.
    destruct bitmapBrush; repeat split.
  - intros created Hcreate. brush_fields b. unfold is_closed in Hopen. simpl in Hopen.
    destruct device; [| discriminate].
    run_member. rewrite Hcreate. simpl.
    destruct imageBrush; repeat split.
Qed.

Lemma switch_all_or_nothing_witness :
  SwitchToImageBrush Scenario.lost_device (Some (d2dOtherImage 9)) Scenario.bitmap_brush
  = (Throw (HResultException_of Scenario.DXGI_ERROR_DEVICE_REMOVED None),
     Scenario.bitmap_brush) /\
  m_d2dBitmapBrush
    (snd (SwitchToImageBrush Scenario.device (Some (d2dOtherImage 9))
                             Scenario.bitmap_brush)) = None.
Proof.
  split.
  - destruct (switch_all_or_nothing Scenario.lost_device Scenario.bitmap_brush
                (Some (d2dOtherImage 9)) None eq_refl) as (Hthrow & _).
    exact (Hthrow _ eq_refl).
  - destruct (switch_all_or_nothing Scenario.device Scenario.bitmap_brush
                (Some (d2dOtherImage 9)) None eq_refl) as (_ & _ & Hdone & _).
    destruct (Hdone _ eq_refl) as (_ & _ & Hreleased & _). exact Hreleased.
Defined.

(** ** The style accessors *)

Lemma get_style (b : CanvasImageBrush) (s : Style) :
  is_closed b = false ->
  style_of b = Some s ->
  get_ExtendX out_valid b = (Normal (S_OK, Some (style_extendX s)), b) /\
  get_ExtendY out_valid b = (Normal (S_OK, Some (style_extendY s)), b) /\
  get_Interpolation out_valid b = (Normal (S_OK, Some (style_interpolation s)), b).
Proof.
  brush_fields b. unfold is_closed, style_of. simpl. intros Hopen Hstyle.
  destruct device; [| discriminate].
  destruct bitmapBrush; [| destruct imageBrush; [| discriminate]];
    inversion Hstyle; subst; repeat split.
Qed.

(** X11. The style setters and getters on an open brush with a native brush,
    in either representation: each of [put_ExtendX], [put_ExtendY] and
    [put_Interpolation] returns [S_OK]; afterwards its getter returns the value
    that was put, the style differs from the style before in that component
    only (the two other modes, the opacity and the transform are as before),
    and the bound image, the representation, the rectangle of the image brush,
    the source rectangle flag and the pending DPI fixup are as before. *)
Theorem style_setters_round_trip
        (b : CanvasImageBrush) (s : Style) (v : Z) :
  is_closed b = false ->
  style_of b = Some s ->
  (fst (put_ExtendX v b) = Normal S_OK /\
   style_of (snd (put_ExtendX v b))
   = Some (mkStyle v (style_extendY s) (style_interpolation s)
                   (style_opacity s) (style_transform s)) /\
   get_ExtendX out_valid (snd (put_ExtendX v b))
   = (Normal (S_OK, Some v), snd (put_ExtendX v b))) /\
  (fst (put_ExtendY v b) = Normal S_OK /\
   style_of (snd (put_ExtendY v b))
   = Some (mkStyle (style_extendX s) v (style_interpolation s)
                   (style_opacity s) (style_transform s)) /\
   get_ExtendY out_valid (snd (put_ExtendY v b))
   = (Normal (S_OK, Some v), snd (put_ExtendY v b))) /\
  (fst (put_Interpolation v b) = Normal S_OK /\
   style_of (snd (put_Interpolation v b))
   = Some (mkStyle (style_extendX s) (style_extendY s) v
                   (style_opacity s) (style_transform s)) /\
   get_Interpolation out_valid (snd (put_Interpolation v b))
   = (Normal (S_OK, Some v), snd (put_Interpolation v b))) /\
  (forall b',
      b' = snd (put_ExtendX v b) \/ b' = snd (put_ExtendY v b) \/
      b' = snd (put_Interpolation v b) ->
      representation b' = representation b /\
      bound_image b' = bound_image b /\
      native_rectangle b' = native_rectangle b /\
      m_isSourceRectSet b' = m_isSourceRectSet b /\
      m_effectNeedingDpiFixup b' = m_effectNeedingDpiFixup b /\
      is_closed b' = false).
Proof.
  brush_fields b. unfold is_closed, style_of. simpl. intros Hopen Hstyle.
  destruct device; [| discriminate].
  destruct bitmapBrush as [bb |]; [| destruct imageBrush as [ib |]; [| discriminate]];
    inversion Hstyle; subst; clear Hstyle;
    (split; [repeat split |]); (split; [repeat split |]); (split; [repeat split |]);
    intros b' [-> | [-> | ->]]; repeat split.
Qed.

Lemma style_setters_round_trip_witness :
  get_ExtendY out_valid (snd (put_ExtendY Scenario.Mirror Scenario.effect_brush))
  = (Normal (S_OK, Some Scenario.Mirror),
     snd (put_ExtendY Scenario.Mirror Scenario.effect_brush)) /\
  bound_image (snd (put_ExtendY Scenario.Mirror Scenario.effect_brush))
  = bound_image Scenario.effect_brush.
Proof.
  destruct (style_setters_round_trip Scenario.effect_brush _ Scenario.Mirror
              eq_refl eq_refl) as (_ & (_ & _ & Hget) & _ & Hframe).
  split; [exact Hget |].
  destruct (Hframe _ (or_intror (or_introl eq_refl))) as (_ & Himage & _).
  exact Himage.
Defined.

(** ** The source rectangle, again *)

Section SourceRectangleInPlace.

Variable ToD2DRect : Rect -> D2D1_RECT_F.
Variable FromD2DRect : D2D1_RECT_F -> Rect.

Lemma put_SourceRectangle_in_place
      (dev : ICanvasDeviceInternal) (b : CanvasImageBrush) (ib : ID2D1ImageBrush)
      (value : IReference_Rect) :
  is_closed b = false ->
  m_d2dBitmapBrush b = None ->
  m_d2dImageBrush b = Some ib ->
  put_SourceRectangle ToD2DRect dev (Some value) b
  = if FAILED (get_Value_hr value)
    then (Normal (get_Value_hr value), b)
    else (Normal S_OK,
          set_m_isSourceRectSet true
            (set_m_d2dImageBrush
               (Some (ImageBrush.SetSourceRectangle
                        (ToD2DRect (get_Value_rect value)) ib)) b)).
Proof.
  brush_fields b. unfold is_closed. simpl. intros Hopen -> ->.
  destruct device; [| discriminate].
  run_member. unfold FAILED.
  destruct (get_Value_hr value) as [| p | p]; reflexivity.
Qed.

(** X12. On an open general image brush, [put_SourceRectangle] with a
    non-null reference works in place and asks the device nothing: a reference
    whose [get_Value] fails makes the call return that [HRESULT] with the brush
    untouched; a readable one makes it return [S_OK] with the converted
    rectangle on the image brush and the flag set, the image and the style
    kept, and [get_SourceRectangle] then returns that rectangle converted back.
    A second such call overwrites the first: the brush is the one the second
    call alone would have left. *)
Theorem put_SourceRectangle_overwrites
        (dev dev' : ICanvasDeviceInternal) (b : CanvasImageBrush) (ib : ID2D1ImageBrush)
        (value value' : IReference_Rect) :
  is_closed b = false ->
  m_d2dBitmapBrush b = None ->
  m_d2dImageBrush b = Some ib ->
  (FAILED (get_Value_hr value) = true ->
   put_SourceRectangle ToD2DRect dev (Some value) b = (Normal (get_Value_hr value), b)) /\
  (FAILED (get_Value_hr value) = false ->
   let b1 := snd (put_SourceRectangle ToD2DRect dev (Some value) b) in
   fst (put_SourceRectangle ToD2DRect dev (Some value) b) = Normal S_OK /\
   native_rectangle b1 = Some (ToD2DRect (get_Value_rect value)) /\
   m_isSourceRectSet b1 = true /\
   bound_image b1 = bound_image b /\
   style_of b1 = style_of b /\
   get_SourceRectangle FromD2DRect out_valid b1
   = (Normal (S_OK, Some (Some (FromD2DRect (ToD2DRect (get_Value_rect value))))), b1) /\
   (FAILED (get_Value_hr value') = false ->
    snd (put_SourceRectangle ToD2DRect dev' (Some value') b1)
    = snd (put_SourceRectangle ToD2DRect dev' (Some value') b))).
Proof.
  intros Hopen Hbb Hib. split; intros Hvalue.
  - rewrite (put_SourceRectangle_in_place dev b ib value Hopen Hbb Hib), Hvalue.
    reflexivity.
  - intros b1. subst b1.
    rewrite (put_SourceRectangle_in_place dev b ib value Hopen Hbb Hib), Hvalue.
    simpl. unfold native_rectangle, bound_image, style_of. simpl. rewrite Hbb, Hib. simpl.
    split; [reflexivity |]. split; [reflexivity |]. split; [reflexivity |].
    split; [reflexivity |]. split; [reflexivity |]. split.
    + apply (get_SourceRectangle_set FromD2DRect _
               (ImageBrush.SetSourceRectangle (ToD2DRect (get_Value_rect value)) ib));
        [exact Hopen | reflexivity | reflexivity].
    + intros Hvalue'.
      rewrite (put_SourceRectangle_in_place dev' b ib value' Hopen Hbb Hib), Hvalue'.
      erewrite put_SourceRectangle_in_place; [| exact Hopen | exact Hbb | reflexivity].
      rewrite Hvalue'. reflexivity.
Qed.

(** X13. Clearing the source rectangle twice is clearing it once: on a
    well-formed brush, [put_SourceRectangle] with null applied to the brush
    that [put_SourceRectangle] with null has left, with the same device,
    returns the same [HRESULT] and leaves that brush as it is, whether the
    first call was a no-op on a bitmap brush, a downgrade, a reset that kept
    an image that is not a bitmap, or a downgrade that the device failed. *)
Theorem put_SourceRectangle_null_idempotent
        (dev : ICanvasDeviceInternal) (b : CanvasImageBrush) :
  well_formed b ->
  let r := put_SourceRectangle ToD2DRect dev None b in
  put_SourceRectangle ToD2DRect dev None (snd r) = (fst r, snd r).
Proof.
  intros Hwf.
  destruct b as [device resource bitmapBrush imageBrush rectSet effect].
  apply well_formed_fields in Hwf. destruct Hwf as (Hopen & Hone & Hrect).
  destruct device; [| discriminate].
  destruct bitmapBrush, imageBrush; try discriminate; [reflexivity |].
  destruct i0 as [[[bitmap | id] |] ? ? ? ? ? ?]; run_member;
    try reflexivity;
    match goal with |- context [CreateBitmapBrush dev ?x] =>
      destruct (CreateBitmapBrush dev x) eqn:Hcreate end; simpl;
    rewrite ?Hcreate; reflexivity.
Qed.

Lemma put_SourceRectangle_switches
      (dev : ICanvasDeviceInternal) (b : CanvasImageBrush) (old : ID2D1BitmapBrush1)
      (value : IReference_Rect) (created : ID2D1ImageBrush) :
  is_closed b = false ->
  m_d2dBitmapBrush b = Some old ->
  FAILED (get_Value_hr value) = false ->
  CreateImageBrush dev (upcast_bitmap (BitmapBrush.GetBitmap old)) = inr created ->
  put_SourceRectangle ToD2DRect dev (Some value) b
  = (Normal S_OK,
     set_m_isSourceRectSet true
       (set_m_resource (Some resource_imageBrush)
          (set_m_d2dBitmapBrush None
             (set_m_d2dImageBrush
                (Some (ImageBrush.SetSourceRectangle (ToD2DRect (get_Value_rect value))
                         (copy_to_imageBrush old created))) b)))).
Proof.
  brush_fields b. unfold is_closed. simpl. intros Hopen -> Hvalue Hcreate.
  destruct device; [| discriminate].
  run_member. rewrite Hcreate. simpl. rewrite Hvalue. reflexivity.
Qed.

(** X14. Setting a source rectangle on a bitmap brush and clearing it again
    gives the bitmap brush back.  With a device that binds its new brushes to
    what they are created on and creates the two brushes asked of it, a
    readable rectangle put on a well-formed brush in the bitmap brush
    representation and then null put on the result both return [S_OK], and the
    brush is again in the bitmap brush representation, bound to the same
    bitmap, with the same style, no source rectangle, and the pending DPI fixup
    it had. *)
Theorem set_then_clear_source_rectangle
        (dev : ICanvasDeviceInternal) (b : CanvasImageBrush) (old : ID2D1BitmapBrush1)
        (value : IReference_Rect)
        (created : ID2D1ImageBrush) (recreated : ID2D1BitmapBrush1) :
  is_closed b = false ->
  m_d2dBitmapBrush b = Some old ->
  m_d2dImageBrush b = None ->
  FAILED (get_Value_hr value) = false ->
  device_binds dev ->
  CreateImageBrush dev (upcast_bitmap (BitmapBrush.GetBitmap old)) = inr created ->
  CreateBitmapBrush dev (BitmapBrush.GetBitmap old) = inr recreated ->
  let b1 := snd (put_SourceRectangle ToD2DRect dev (Some value) b) in
  let b2 := snd (put_SourceRectangle ToD2DRect dev None b1) in
  fst (put_SourceRectangle ToD2DRect dev (Some value) b) = Normal S_OK /\
  fst (put_SourceRectangle ToD2DRect dev None b1) = Normal S_OK /\
  representation b2 = BitmapBrushRepresentation /\
  bound_image b2 = bound_image b /\
  style_of b2 = style_of b /\
  m_isSourceRectSet b2 = false /\
  m_effectNeedingDpiFixup b2 = m_effectNeedingDpiFixup b /\
  get_SourceRectangle FromD2DRect out_valid b2 = (Normal (S_OK, Some None), b2).
Proof.
  intros Hopen Hbb Hib Hvalue [Hbind_image Hbind_bitmap] Hcreate Hrecreate b1 b2.
  pose proof (Hbind_image _ _ Hcreate) as Himage.
  pose proof (Hbind_bitmap _ _ Hrecreate) as Hbitmap.
  pose proof (put_SourceRectangle_switches dev b old value created
                Hopen Hbb Hvalue Hcreate) as Hput.
  assert (Hplain : plain_bitmap_or_absent (upcast_bitmap (BitmapBrush.GetBitmap old)) = true)
    by (destruct (BitmapBrush.GetBitmap old); reflexivity).
  assert (Hsame : bitmap_of_image (upcast_bitmap (BitmapBrush.GetBitmap old))
                  = BitmapBrush.GetBitmap old)
    by (destruct (BitmapBrush.GetBitmap old); reflexivity).
  subst b2 b1. rewrite Hput. cbn [fst snd].
  match goal with |- context [put_SourceRectangle ToD2DRect dev None ?s] =>
    pose proof (put_SourceRectangle_null_downgrades ToD2DRect dev s
                  (ImageBrush.SetSourceRectangle (ToD2DRect (get_Value_rect value))
                     (copy_to_imageBrush old created))) as Hclear
  end.
  cbn [ImageBrush.GetImage ImageBrush.image ImageBrush.SetSourceRectangle
       copy_to_imageBrush ImageBrush.SetTransform ImageBrush.SetOpacity
       ImageBrush.SetInterpolationMode ImageBrush.SetExtendModeY
       ImageBrush.SetExtendModeX] in Hclear.
  unfold ImageBrush.GetImage in Himage. rewrite Himage, Hsame, Hrecreate in Hclear.
  rewrite Hclear; [| exact Hopen | reflexivity | reflexivity | exact Hplain].
  cbn [fst snd]. split; [reflexivity |]. split; [reflexivity |].
  destruct b as [device resource bitmapBrush imageBrush rectSet effect].
  simpl in Hbb, Hib, Hopen. subst bitmapBrush imageBrush.
  unfold is_closed in Hopen. simpl in Hopen.
  destruct device; [| discriminate].
  destruct recreated as [bitmap' ? ? ? ? ?]. unfold BitmapBrush.GetBitmap in Hbitmap.
  simpl in Hbitmap. subst bitmap'.
  destruct old as [bitmap ? ? ? ? ?].
  unfold representation, bound_image, style_of. simpl. repeat split.
Qed.

End SourceRectangleInPlace.

Lemma put_SourceRectangle_overwrites_witness :
  native_rectangle
    (snd (put_SourceRectangle Scenario.ToD2DRect Scenario.lost_device
            (Some (Nullable (mkRect Scenario.one Scenario.one Scenario.one Scenario.one)))
            Scenario.cropped_effect_brush))
  = Some (Scenario.ToD2DRect (mkRect Scenario.one Scenario.one Scenario.one Scenario.one)) /\
  put_SourceRectangle Scenario.ToD2DRect Scenario.device (Some Scenario.unreadable)
                      Scenario.cropped_effect_brush
  = (Normal E_INVALIDARG, Scenario.cropped_effect_brush).
Proof.
  split.
  - destruct (put_SourceRectangle_overwrites Scenario.ToD2DRect Scenario.FromD2DRect
                Scenario.lost_device Scenario.device Scenario.cropped_effect_brush _
                (Nullable (mkRect Scenario.one Scenario.one Scenario.one Scenario.one))
                (Nullable Scenario.unit_square) eq_refl eq_refl eq_refl)
      as [_ Hreadable].
    destruct (Hreadable eq_refl) as (_ & Hrect & _). exact Hrect.
  - destruct (put_SourceRectangle_overwrites Scenario.ToD2DRect Scenario.FromD2DRect
                Scenario.device Scenario.device Scenario.cropped_effect_brush _
                Scenario.unreadable (Nullable Scenario.unit_square)
                eq_refl eq_refl eq_refl) as [Hunreadable _].
    exact (Hunreadable eq_refl).
Defined.

Lemma put_SourceRectangle_null_idempotent_witness :
  put_SourceRectangle Scenario.ToD2DRect Scenario.lost_device None
    (snd (put_SourceRectangle Scenario.ToD2DRect Scenario.lost_device None
                              Scenario.cropped_bitmap_brush))
  = put_SourceRectangle Scenario.ToD2DRect Scenario.lost_device None
                        Scenario.cropped_bitmap_brush.
Proof.
  assert (Hwf : well_formed Scenario.cropped_bitmap_brush)
    by (constructor; reflexivity).
  rewrite (put_SourceRectangle_null_idempotent Scenario.ToD2DRect Scenario.lost_device
             Scenario.cropped_bitmap_brush Hwf).
  reflexivity.
Defined.

Lemma set_then_clear_source_rectangle_witness :
  let b2 :=
    snd (put_SourceRectangle Scenario.ToD2DRect Scenario.device None
           (snd (put_SourceRectangle Scenario.ToD2DRect Scenario.device
                                     (Some (Nullable Scenario.unit_square))
                                     Scenario.bitmap_brush))) in
  representation b2 = BitmapBrushRepresentation /\
  bound_image b2 = Some (d2dBitmap 7%N) /\
  style_of b2 = style_of Scenario.bitmap_brush.
Proof.
  destruct (set_then_clear_source_rectangle Scenario.ToD2DRect Scenario.FromD2DRect
              Scenario.device Scenario.bitmap_brush _ (Nullable Scenario.unit_square) _ _
              eq_refl eq_refl eq_refl eq_refl Scenario_device_binds eq_refl eq_refl)
    as (_ & _ & Hrep & Himage & Hstyle & _).
  split; [exact Hrep |]. split; [exact Himage | exact Hstyle].
Defined.

(** ** Reading the image and the native resource *)

(** X15. [get_Image] on an open brush with one native brush: when no image
    is bound it returns [S_OK] and null without asking the resource manager;
    when an image is bound (the bitmap of the bitmap brush, seen as an image,
    or the image of the image brush) it asks the resource manager for the
    wrapper of that image on the device of the brush and returns [S_OK] and the
    wrapper, or the [HRESULT] of what the resource manager throws and nothing.
    The brush is untouched. *)
Theorem get_Image_outcome
        (GetOrCreate : ICanvasDevice -> ID2D1Image -> HResultException + ICanvasImage)
        (b : CanvasImageBrush) (owner : ICanvasDevice) :
  m_device b = Some owner ->
  exactly_one_populated b = true ->
  get_Image GetOrCreate out_valid b
  = (Normal match bound_image b with
            | None => (S_OK, Some None)
            | Some d2dImage =>
                match GetOrCreate owner d2dImage with
                | inr image => (S_OK, Some (Some image))
                | inl e => (GetHr e, None)
                end
            end, b).
Proof.
  brush_fields b. unfold exactly_one_populated, bound_image. simpl.
  intros -> Hone.
  destruct bitmapBrush as [[[bitmap |] ? ? ? ? ?] |],
           imageBrush as [[[d2dImage |] ? ? ? ? ? ?] |];
    try discriminate; run_member; try reflexivity;
    match goal with |- context [GetOrCreate ?d ?i] =>
      destruct (GetOrCreate d i) end; reflexivity.
Qed.

Lemma get_Image_outcome_witness :
  get_Image (lib_GetOrCreate Scenario.library) out_valid Scenario.empty_brush
  = (Normal (S_OK, Some None), Scenario.empty_brush) /\
  get_Image (lib_GetOrCreate Scenario.library) out_valid Scenario.bitmap_brush
  = (Normal (S_OK, Some (Some Scenario.a_bitmap)), Scenario.bitmap_brush).
Proof.
  split.
  - exact (get_Image_outcome (lib_GetOrCreate Scenario.library)
             Scenario.empty_brush 1%N eq_refl eq_refl).
  - exact (get_Image_outcome (lib_GetOrCreate Scenario.library)
             Scenario.bitmap_brush 1%N eq_refl eq_refl).
Defined.

(** X16. [GetD2DImage] has no check of its own for a closed brush.  On a
    brush with exactly one native brush it returns the bound image and leaves
    the brush alone; on a brush that [Close] has left, where both [ComPtr]s are
    null, it takes the branch of the image brush and dereferences the null
    pointer.  [get_Image] checks first: on the closed brush it returns
    [RO_E_CLOSED] and never reaches that dereference. *)
Theorem GetD2DImage_needs_open_brush
        (GetOrCreate : ICanvasDevice -> ID2D1Image -> HResultException + ICanvasImage)
        (b : CanvasImageBrush) :
  (exactly_one_populated b = true ->
   GetD2DImage_of_brush b = (Normal (bound_image b), b)) /\
  GetD2DImage_of_brush (snd (Close b)) = (NullDereference, snd (Close b)) /\
  get_Image GetOrCreate out_valid (snd (Close b))
  = (Normal (RO_E_CLOSED, None), snd (Close b)).
Proof.
  brush_fields b. unfold exactly_one_populated, bound_image. simpl.
  split; [| split; reflexivity].
  destruct bitmapBrush, imageBrush; intros Hone; try discriminate; reflexivity.
Qed.

Lemma GetD2DImage_needs_open_brush_witness :
  GetD2DImage_of_brush Scenario.effect_brush
  = (Normal (Some (d2dOtherImage 9)), Scenario.effect_brush).
Proof.
  exact (proj1 (GetD2DImage_needs_open_brush (lib_GetOrCreate Scenario.library)
                  Scenario.effect_brush) eq_refl).
Defined.

Section NativeResource.

Variable lib : Library.

(** X17. [GetResource] on a well-formed brush checks, in this order, the out
    pointer, the device of the brush against the device asked for, and the
    interface asked for, and then returns [S_OK] and the populated native
    brush.  It does not look at the source rectangle or at the pending DPI
    fixup: on a general image brush without a source rectangle, where
    [GetD2DBrush] without [NoValidation] throws, [GetResource] still hands out
    the image brush, the brush that [GetD2DBrush] returns with [NoValidation]
    and no device context. *)
Theorem GetResource_outcome
        (b : CanvasImageBrush) (owner device : ICanvasDevice) (dpi : FLOAT) (iid : Z)
        (native : ID2D1Brush) :
  well_formed b ->
  m_device b = Some owner ->
  populated_brush b = Some native ->
  GetResource (lib_ValidateDevice lib) (lib_CopyTo lib) device dpi iid out_nullptr b
  = (Normal (E_INVALIDARG, None), b) /\
  GetResource (lib_ValidateDevice lib) (lib_CopyTo lib) device dpi iid out_valid b
  = (Normal match lib_ValidateDevice lib owner device with
            | inl e => (GetHr e, None)
            | inr _ =>
                if FAILED (lib_CopyTo lib iid native)
                then (lib_CopyTo lib iid native, None)
                else (S_OK, Some native)
            end, b) /\
  resolveForDrawing lib None GetBrushFlag.NoValidation b = (Normal (Some native), b).
Proof.
  intros Hwf Hdevice Hnative.
  destruct b as [dev0 resource bitmapBrush imageBrush rectSet effect].
  apply well_formed_fields in Hwf. destruct Hwf as (Hopen & Hone & Hrect).
  simpl in Hdevice. subst dev0. unfold populated_brush in Hnative. simpl in Hnative.
  destruct bitmapBrush, imageBrush; try discriminate;
    inversion Hnative; subst; clear Hnative;
    (split; [reflexivity |]); (split; [| destruct effect; reflexivity]);
    run_member; destruct (lib_ValidateDevice lib owner device); simpl;
    try reflexivity; unfold FAILED;
    match goal with |- context [lib_CopyTo lib ?i ?n] =>
      destruct (lib_CopyTo lib i n) end; reflexivity.
Qed.

(** X18. [GetD2DBrush] on a well-formed brush when no DPI fixup can run,
    because no device context is passed or no effect is pending: it returns
    the bitmap brush if there is one; otherwise it returns the image brush if
    a source rectangle is set or the [NoValidation] bit is in the flags, and
    throws the invalid-configuration exception if neither holds.  It throws
    nothing else, and the [AlwaysInsertDpiCompensation] bit makes no
    difference. *)
Theorem GetD2DBrush_without_fixup
        (b : CanvasImageBrush) (deviceContext : option ID2D1DeviceContext)
        (flags : GetBrushFlags) (native : ID2D1Brush) :
  well_formed b ->
  populated_brush b = Some native ->
  deviceContext = None \/ m_effectNeedingDpiFixup b = None ->
  resolveForDrawing lib deviceContext flags b
  = if is_set (m_d2dBitmapBrush b)
       || m_isSourceRectSet b
       || negb (Z.land flags GetBrushFlag.NoValidation =? GetBrushFlag.None)
    then (Normal (Some native), b)
    else (Throw invalid_configuration, b).
Proof.
  intros Hwf Hnative Hnofixup.
  destruct (m_d2dBitmapBrush b) as [bb |] eqn:Hbb.
  - unfold populated_brush in Hnative. rewrite Hbb in Hnative.
    inversion Hnative; subst. simpl.
    apply GetD2DBrush_bitmapBrush; [apply Hwf | exact Hbb].
  - simpl. unfold populated_brush in Hnative. rewrite Hbb in Hnative.
    destruct (m_isSourceRectSet b) eqn:Hrect; simpl.
    + rewrite GetD2DBrush_passes_validation; [| apply Hwf | exact Hbb | now left].
      rewrite Hnative.
      unfold dpi_fixup_failure.
      destruct Hnofixup as [-> | ->]; [destruct (m_effectNeedingDpiFixup b) |];
        reflexivity.
    + destruct (Z.land flags GetBrushFlag.NoValidation =? GetBrushFlag.None) eqn:Hbit;
        simpl.
      * apply GetD2DBrush_validated;
          [apply Hwf | exact Hbb | exact Hrect | now apply Z.eqb_eq].
      * rewrite GetD2DBrush_passes_validation;
          [| apply Hwf | exact Hbb | right; now apply Z.eqb_neq].
        rewrite Hnative. unfold dpi_fixup_failure.
        destruct Hnofixup as [-> | ->]; [destruct (m_effectNeedingDpiFixup b) |];
          reflexivity.
Qed.

End NativeResource.

Lemma GetResource_outcome_witness :
  GetResource (lib_ValidateDevice Scenario.library) (lib_CopyTo Scenario.library)
              1%N Scenario.one 0 out_valid Scenario.effect_brush
  = (Normal (S_OK, populated_brush Scenario.effect_brush), Scenario.effect_brush) /\
  GetResource (lib_ValidateDevice Scenario.library) (lib_CopyTo Scenario.library)
              2%N Scenario.one 0 out_valid Scenario.effect_brush
  = (Normal (E_INVALIDARG, None), Scenario.effect_brush).
Proof.
  assert (Hwf : well_formed Scenario.effect_brush)
    by (constructor; [reflexivity | reflexivity | discriminate]).
  split.
  - destruct (GetResource_outcome Scenario.library Scenario.effect_brush 1%N 1%N
                Scenario.one 0 _ Hwf eq_refl eq_refl) as (_ & Hget & _).
    exact Hget.
  - destruct (GetResource_outcome Scenario.library Scenario.effect_brush 1%N 2%N
                Scenario.one 0 _ Hwf eq_refl eq_refl) as (_ & Hget & _).
    exact Hget.
Defined.

Lemma GetD2DBrush_without_fixup_witness :
  resolveForDrawing Scenario.library None GetBrushFlag.AlwaysInsertDpiCompensation
                    Scenario.cropped_effect_brush
  = (Normal (populated_brush Scenario.cropped_effect_brush), Scenario.cropped_effect_brush).
Proof.
  assert (Hwf : well_formed Scenario.cropped_effect_brush)
    by (constructor; reflexivity).
  exact (GetD2DBrush_without_fixup Scenario.library Scenario.cropped_effect_brush None
           GetBrushFlag.AlwaysInsertDpiCompensation _ Hwf eq_refl (or_introl eq_refl)).
Defined.

(** ** From the assignment of an effect to its DPI fixup *)

(** X19. The effect recorded by [put_Image] is the one [GetD2DBrush]
    realises.  On an open general image brush with a source rectangle, after
    [put_Image] of an image the device resolves, [GetD2DBrush] with a device
    context returns the image brush bound to the resolved image; on the way, if
    and only if the image is an effect that gave its [ICanvasImageInternal], it
    realises that effect (not one assigned earlier) for the sentinel DPI when
    [AlwaysInsertDpiCompensation] is in the flags and for the DPI of the
    device context otherwise, and throws what the realisation throws. *)
Theorem assigned_effect_is_realized
        (lib : Library) (b : CanvasImageBrush) (ib : ID2D1ImageBrush)
        (image : ICanvasImage) (d2dImage : ID2D1Image)
        (deviceContext : ID2D1DeviceContext) (flags : GetBrushFlags) :
  is_closed b = false ->
  m_d2dBitmapBrush b = None ->
  m_d2dImageBrush b = Some ib ->
  m_isSourceRectSet b = true ->
  GetD2DImage (lib_device lib) image = inr d2dImage ->
  let b' := snd (put_Image (lib_device lib) (Some image) b) in
  let targetDpi :=
    if negb (Z.land flags GetBrushFlag.AlwaysInsertDpiCompensation =? GetBrushFlag.None)
    then lib_MAGIC_FORCE_DPI_COMPENSATION_VALUE lib
    else lib_GetDpi lib deviceContext in
  let bound := Some (brush_of_imageBrush (ImageBrush.SetImage (Some d2dImage) ib)) in
  resolveForDrawing lib (Some deviceContext) flags b'
  = match recorded_effect image with
    | Some effect =>
        match lib_GetRealizedEffectNode lib effect deviceContext targetDpi with
        | inl e => (Throw e, b')
        | inr _ => (Normal bound, b')
        end
    | None => (Normal bound, b')
    end.
Proof.
  brush_fields b. unfold is_closed. simpl. intros Hopen -> -> -> Hresolve.
  destruct device; [| discriminate].
  unfold recorded_effect.
  run_member. rewrite andb_false_r, Hresolve. simpl.
  destruct (MaybeAs_IGraphicsEffect image) as [effect' |]; simpl;
    destruct (FAILED (As_ICanvasImageInternal image)); simpl;
    destruct (Z.land flags GetBrushFlag.NoValidation =? GetBrushFlag.None); simpl;
    try reflexivity;
    destruct (lib_GetRealizedEffectNode lib effect' deviceContext _); reflexivity.
Qed.

Lemma assigned_effect_is_realized_witness :
  m_effectNeedingDpiFixup
    (snd (put_Image (lib_device Scenario.library)
                    (Some (mkCanvasImage 11 None (Some 11%N)))
                    Scenario.cropped_effect_brush)) = Some 11%N /\
  fst (resolveForDrawing Scenario.library (Some 3%N) GetBrushFlag.None
         (snd (put_Image (lib_device Scenario.library)
                         (Some (mkCanvasImage 11 None (Some 11%N)))
                         Scenario.cropped_effect_brush)))
  = Normal (Some (brush_of_imageBrush
                    (ImageBrush.mk (Some (d2dOtherImage 11)) 0 0 1 Scenario.one
                       Scenario.identity (Scenario.ToD2DRect Scenario.unit_square)))).
Proof.
  split; [reflexivity |].
  pose proof (assigned_effect_is_realized Scenario.library Scenario.cropped_effect_brush _
                (mkCanvasImage 11 None (Some 11%N)) (d2dOtherImage 11) 3%N
                GetBrushFlag.None eq_refl eq_refl eq_refl eq_refl eq_refl) as Hresolve.
  exact (f_equal fst Hresolve).
Defined.
